(** * Coffee Passport: the WhatsApp bridge and the loyalty state machine

    A shallow embedding of [whatsapp-service/whatsapp-service.js] (the
    Node.js bridge between the WhatsApp socket and the FastAPI backend) and
    of the loyalty transitions the specification gives for the backend.

    - [JsString]: the two [String.prototype] methods the service uses.
    - [WhatsAppService]: [sendMessage], [handleIncomingMessage] and the
      [messages.upsert] listener of [initWhatsApp], over a small monad that
      threads thrown errors and the observable events.
    - [LoyaltyEngine]: the customer store and the six commands. *)

From Stdlib Require Import ZArith Lia Bool List Ascii String.
From stdpp Require Import gmap strings list fin_maps.
Import ListNotations.

Local Open Scope string_scope.
Local Open Scope list_scope.

(* ===================================================================== *)
(** ** JavaScript string methods                                          *)
(* ===================================================================== *)

Module JsString.

(** [strip_prefix pat s] is [Some rest] when [s = pat ++ rest]: the test
    "does [pat] occur at index 0 of [s]", returning what follows it. *)
Fixpoint strip_prefix (pat s : string) : option string :=
  match pat with
  | EmptyString => Some s
  | String p pat' =>
      match s with
      | EmptyString => None
      | String c s' => if Ascii.eqb p c then strip_prefix pat' s' else None
      end
  end.

(** [s.replace(pat, rep)] for a string pattern: only the FIRST occurrence
    of [pat] (scanning from the left) is replaced.  The service calls it
    with [rep = ''], so the special [$] sequences of a replacement string
    play no role. *)
Fixpoint replace (pat rep s : string) : string :=
  match strip_prefix pat s with
  | Some rest => rep +:+ rest
  | None =>
      match s with
      | EmptyString => EmptyString
      | String c s' => String c (replace pat rep s')
      end
  end.

(** [s.includes(pat)]: [pat] occurs somewhere in [s]. *)
Fixpoint includes (pat s : string) : bool :=
  match strip_prefix pat s with
  | Some _ => true
  | None =>
      match s with
      | EmptyString => false
      | String _ s' => includes pat s'
      end
  end.

(** Number of occurrences of one character. *)
Fixpoint count_char (a : ascii) (s : string) : nat :=
  match s with
  | EmptyString => 0
  | String c s' => (if Ascii.eqb a c then 1 else 0) + count_char a s'
  end.

(** Every character of [s] satisfies [p]. *)
Fixpoint all_chars (p : ascii -> bool) (s : string) : bool :=
  match s with
  | EmptyString => true
  | String c s' => p c && all_chars p s'
  end.

Definition is_digit (c : ascii) : bool :=
  let n := nat_of_ascii c in (48 <=? n)%nat && (n <=? 57)%nat.

(** Digits only, except possibly one leading ['+']. *)
Definition is_phone_shaped (s : string) : bool :=
  match s with
  | String "+" s' => all_chars is_digit s'
  | _ => all_chars is_digit s
  end.

End JsString.

(* ===================================================================== *)
(** ** whatsapp-service.js                                                *)
(* ===================================================================== *)

Module WhatsAppService.

(** *** Values exchanged with Baileys and axios *)

(** A thrown JavaScript error: its constructor name and its [message]. *)
Record JsError := { error_name : string; error_message : string }.

Definition Error (msg : string) : JsError :=
  {| error_name := "Error"; error_message := msg |}.
Definition TypeError (msg : string) : JsError :=
  {| error_name := "TypeError"; error_message := msg |}.

(** Reading property [prop] of [undefined] or [null]. *)
Definition cannot_read (prop : string) : JsError :=
  TypeError ("Cannot read properties of undefined (reading '" +:+ prop +:+ "')").

(** [message.key]: every field of Baileys' message key is optional
    ([remoteJid?: string | null], [fromMe?: boolean | null],
    [id?: string | null]); [None] stands for [undefined] and [null].
    The field [id] is spelled [key_id] here. *)
Record MessageKey := {
  remoteJid : option string;
  fromMe : option bool;
  key_id : option string
}.

Record ExtendedTextMessage := { text : option string }.

(** [message.message], the content of a message. *)
Record MessageContent := {
  conversation : option string;
  extendedTextMessage : option ExtendedTextMessage
}.

Record WAMessage := {
  key : MessageKey;
  message : option MessageContent;
  messageTimestamp : option Z
}.

(** The JSON body of the POST to [/api/whatsapp/message]. *)
Record Payload := {
  phone_number : string;
  payload_message : string;
  message_id : option string;
  timestamp : option Z
}.

(** What axios resolves to: [response.data], and in it [reply]. *)
Record ResponseData := { reply : option string }.
Record Response := { data : option ResponseData }.

(** The object [sendMessage] returns. *)
Record SendResult := { success : bool; error : option string }.

(** The socket handle held in the module variable [sock]. *)
Inductive WASocket := mkWASocket.

(** *** Observable events and the execution monad *)

Inductive Event :=
| ConsoleLog (line : string)
| ConsoleError (label : string) (e : JsError)
| AxiosPost (url : string) (body : Payload)
| SockSendMessage (jid txt : string).

(** How a statement completes. *)
Inductive Completion (A : Type) :=
| Normal (a : A)
| Thrown (e : JsError).
Arguments Normal {A} a.
Arguments Thrown {A} e.

(** The module-level variables [sock] and [connectionStatus], and the
    events that happened so far (the outside world may answer according
    to them). *)
Record Env := {
  sock : option WASocket;
  connectionStatus : string;
  history : list Event
}.

Definition advance (env : Env) (evs : list Event) : Env :=
  {| sock := sock env;
     connectionStatus := connectionStatus env;
     history := history env ++ evs |}.

(** A computation reads the environment, completes normally or throws,
    and emits events in order. *)
Definition M (A : Type) : Type := Env -> Completion A * list Event.

Definition ret {A} (a : A) : M A := fun _ => (Normal a, []).

Definition throw {A} (e : JsError) : M A := fun _ => (Thrown e, []).

Definition bind {A B} (m : M A) (k : A -> M B) : M B :=
  fun env =>
    match m env with
    | (Normal a, evs) =>
        let '(r, evs') := k a (advance env evs) in (r, evs ++ evs')
    | (Thrown e, evs) => (Thrown e, evs)
    end.

(** [try { body } catch (error) { handler }] *)
Definition try_catch {A} (body : M A) (handler : JsError -> M A) : M A :=
  fun env =>
    match body env with
    | (Normal a, evs) => (Normal a, evs)
    | (Thrown e, evs) =>
        let '(r, evs') := handler e (advance env evs) in (r, evs ++ evs')
    end.

Definition ask : M Env := fun env => (Normal env, []).

Definition emit (ev : Event) : M unit := fun _ => (Normal tt, [ev]).

Declare Scope js_scope.
Delimit Scope js_scope with js.
Notation "x <-- c ;; k" := (bind c (fun x => k))
  (at level 100, c at next level, right associativity) : js_scope.
Notation "c ;;; k" := (bind c (fun _ => k))
  (at level 100, right associativity) : js_scope.
Local Open Scope js_scope.

Definition console_log (line : string) : M unit := emit (ConsoleLog line).
Definition console_error (label : string) (e : JsError) : M unit :=
  emit (ConsoleError label e).

(** JavaScript truthiness of a value that is a string, [undefined] or
    [null]: only a non-empty string is truthy. *)
Definition truthy (v : option string) : bool :=
  match v with
  | Some s => negb (String.eqb s "")
  | None => false
  end.

Definition truthy_bool (v : option bool) : bool :=
  match v with
  | Some b => b
  | None => false
  end.

(** Truthiness of a value that is an object, [undefined] or [null]. *)
Definition present {A} (v : option A) : bool :=
  match v with
  | Some _ => true
  | None => false
  end.

(** The suffix of a user JID, and the reply of the [catch] block. *)
Definition USER_SUFFIX : string := "@s.whatsapp.net".
Definition ERROR_REPLY : string :=
  "Sorry, I encountered an error processing your message. Please try again.".

(** [remoteJid.replace('@s.whatsapp.net', '')] on a string (lines 71, 93). *)
Definition normalize (remoteJid : string) : string :=
  JsString.replace USER_SUFFIX "" remoteJid.

(** [phoneNumber.includes('@') ? phoneNumber : `${phoneNumber}@s.whatsapp.net`]
    (line 104). *)
Definition jid_of (phoneNumber : string) : string :=
  if JsString.includes "@" phoneNumber then phoneNumber
  else phoneNumber +:+ USER_SUFFIX.

(** [a || b] on values that are strings, [undefined] or [null]. *)
Definition js_or (a b : option string) : option string :=
  if truthy a then a else b.

(** [e?.text] *)
Definition optional_text (e : option ExtendedTextMessage) : option string :=
  match e with
  | Some e => text e
  | None => None
  end.

(** [message.message.conversation || message.message.extendedTextMessage?.text || ''],
    lines 72-73.  The chain ends in a string, so its value is one. *)
Definition messageText (c : MessageContent) : string :=
  default ""
    (js_or (js_or (conversation c) (optional_text (extendedTextMessage c)))
           (Some "")).

(** The messages handed to the socket, and the requests sent to the
    backend, among some events. *)
Fixpoint outbound (evs : list Event) : list (string * string) :=
  match evs with
  | [] => []
  | SockSendMessage jid txt :: rest => (jid, txt) :: outbound rest
  | _ :: rest => outbound rest
  end.

Fixpoint posts (evs : list Event) : list (string * Payload) :=
  match evs with
  | [] => []
  | AxiosPost url body :: rest => (url, body) :: posts rest
  | _ :: rest => posts rest
  end.

(** The fields of a request body that carry a value: [phone_number] and
    [message] are always strings; [message_id] and [timestamp] carry one
    only when the message has them (an [undefined] property is left out
    of the JSON, a [null] one is sent as [null]). *)
Definition FOUR_FIELDS : list string :=
  ["phone_number"; "message"; "message_id"; "timestamp"].

Definition carried_fields (p : Payload) : list string :=
  ["phone_number"; "message"] ++
  (if present (message_id p) then ["message_id"] else []) ++
  (if present (timestamp p) then ["timestamp"] else []).

(** [new Error('WhatsApp not connected')] and the console lines. *)
Definition NOT_CONNECTED : JsError := Error "WhatsApp not connected".
Definition SENDING_ERROR : string := "Error sending message:".
Definition HANDLING_ERROR : string := "Error handling incoming message:".
Definition received_line (phoneNumber messageText : string) : string :=
  "Received message from " +:+ phoneNumber +:+ ": " +:+ messageText.
Definition sent_line (phoneNumber txt : string) : string :=
  "Sent message to " +:+ phoneNumber +:+ ": " +:+ txt.

(** The error the [catch] block of [handleIncomingMessage] receives when
    the forward fails: what axios threw, or the [TypeError] of reading
    [reply] from an absent [response.data]. *)
Definition forward_failure (r : Completion Response) : option JsError :=
  match r with
  | Thrown e => Some e
  | Normal resp =>
      match data resp with
      | None => Some (cannot_read "reply")
      | Some _ => None
      end
  end.

Definition isConnected (env : Env) : bool :=
  match sock env with
  | Some _ => String.eqb (connectionStatus env) "connected"
  | None => false
  end.

Section Service.

(** [process.env.FASTAPI_URL || 'http://localhost:8001'] *)
Variable FASTAPI_URL : string.

(** The two collaborators.  [axios_post h url body] is how the POST
    completes after the events [h]; [sock_sendMessage h jid txt] is how
    Baileys' [sock.sendMessage(jid, { text })] completes. *)
Variable axios_post : list Event -> string -> Payload -> Completion Response.
Variable sock_sendMessage : list Event -> string -> string -> Completion unit.

Definition await_axios_post (url : string) (body : Payload) : M Response :=
  fun env => (axios_post (history env) url body, [AxiosPost url body]).

Definition await_sock_sendMessage (jid txt : string) : M unit :=
  fun env => (sock_sendMessage (history env) jid txt, [SockSendMessage jid txt]).

(** Reading a property of a possibly absent object. *)
Definition get_or_throw {A} (prop : string) (v : option A) : M A :=
  match v with
  | Some a => ret a
  | None => throw (cannot_read prop)
  end.

(** [async function sendMessage(phoneNumber, text)], lines 98-113.  The
    [/send] endpoint passes [req.body.phone_number], which may be absent;
    [handleIncomingMessage] always passes a string. *)
Definition sendMessage (phoneNumber : option string) (txt : string) : M SendResult :=
  try_catch
    (env <-- ask ;;
     (if negb (isConnected env)
      then throw NOT_CONNECTED
      else ret tt) ;;;
     number <-- get_or_throw "includes" phoneNumber ;;
     let jid := jid_of number in
     await_sock_sendMessage jid txt ;;;
     console_log (sent_line number txt) ;;;
     ret {| success := true; error := None |})
    (fun error =>
       console_error SENDING_ERROR error ;;;
       ret {| success := false; error := Some (error_message error) |}).

(** [`${FASTAPI_URL}/api/whatsapp/message`] *)
Definition MESSAGE_URL : string := FASTAPI_URL +:+ "/api/whatsapp/message".

Definition mkPayload (phoneNumber messageText : string) (m : WAMessage) : Payload :=
  {| phone_number := phoneNumber;
     payload_message := messageText;
     message_id := key_id (key m);
     timestamp := messageTimestamp m |}.

(** [async function handleIncomingMessage(message)], lines 69-96: the
    [try] block, the [catch] block, and the function. *)
Definition handleIncomingMessage_try (m : WAMessage) : M unit :=
  jid <-- get_or_throw "replace" (remoteJid (key m)) ;;
  let phoneNumber := normalize jid in
  content <-- get_or_throw "conversation" (message m) ;;
  let messageText := messageText content in
  console_log (received_line phoneNumber messageText) ;;;
  response <-- await_axios_post MESSAGE_URL (mkPayload phoneNumber messageText m) ;;
  d <-- get_or_throw "reply" (data response) ;;
  if truthy (reply d)
  then sendMessage (Some phoneNumber) (default "" (reply d)) ;;; ret tt
  else ret tt.

Definition handleIncomingMessage_catch (m : WAMessage) (error : JsError) : M unit :=
  console_error HANDLING_ERROR error ;;;
  jid <-- get_or_throw "replace" (remoteJid (key m)) ;;
  let phoneNumber := normalize jid in
  sendMessage (Some phoneNumber) ERROR_REPLY ;;; ret tt.

Definition handleIncomingMessage (m : WAMessage) : M unit :=
  try_catch (handleIncomingMessage_try m) (handleIncomingMessage_catch m).

(** The body of the [for (const message of messages)] loop, lines 53-57:
    each [await] rethrows, so a throwing handler ends the loop. *)
Fixpoint forEachMessage (messages : list WAMessage) : M unit :=
  match messages with
  | [] => ret tt
  | m :: rest =>
      (if negb (truthy_bool (fromMe (key m))) && present (message m)
       then handleIncomingMessage m
       else ret tt) ;;;
      forEachMessage rest
  end.

(** The [messages.upsert] listener, lines 51-59. *)
Definition onMessagesUpsert (messages : list WAMessage) (type : string) : M unit :=
  if String.eqb type "notify" then forEachMessage messages else ret tt.

End Service.

End WhatsAppService.

(* ===================================================================== *)
(** ** The loyalty engine (FastAPI backend)                               *)
(* ===================================================================== *)

Module LoyaltyEngine.

Local Open Scope Z_scope.

(** Modelled from the spec: the backend that interprets the commands (the
    FastAPI server behind [/api/whatsapp/message]) is not among the
    sources; the records, the authorization gate and the transition table
    below follow sections 3, 4.3 and 4.4 of the specification. *)
Record Customer := {
  customer_id : string;
  phone_number : string;
  name : string;
  stamps : Z;
  rewards : Z;
  last_stamp_at : option Z;
  created_at : Z
}.

Inductive Action := STAMP_ACTION | REDEEM_ACTION.

Inductive Failure :=
| CUSTOMER_NOT_FOUND
| NOT_STAFF
| DUPLICATE_STAMP
| ALREADY_MAXED
| NO_REWARD_AVAILABLE.

Record AuditEntry := {
  actor_phone : string;
  action : Action;
  target_customer_id : string;
  result : option Failure;   (* [None] is success *)
  audit_timestamp : Z
}.

Inductive Command :=
| JOIN
| STATUS
| REWARD
| UPDATE_NAME (new_name : string)
| STAMP (id : string)
| REDEEM (id : string).

Inductive Outcome :=
| Joined (c : Customer)
| CurrentStatus (c : Customer)
| JoinFirst
| RewardClaimed (c : Customer)
| Shortfall (remaining : Z)
| NameUpdated (c : Customer)
| Stamped (c : Customer)
| Redeemed (c : Customer)
| Denied (f : Failure).

(** The customer store is keyed by phone number. *)
Record State := {
  customers : gmap string Customer;
  staff : gset string;
  audit : list AuditEntry
}.

(** Five minutes, in the seconds of the inbound timestamp. *)
Definition COOLDOWN : Z := 300.
Definition MAX_STAMPS : Z := 10.

(** Modelled from the spec: [getById], the secondary lookup of the
    customer store (section 6). *)
Definition getById (id : string) (m : gmap string Customer) : option Customer :=
  snd <$> List.find (fun kc => String.eqb (customer_id (snd kc)) id) (map_to_list m).

Definition upsert (c : Customer) (m : gmap string Customer) : gmap string Customer :=
  <[phone_number c := c]> m.

Definition cooldown_elapsed (now : Z) (c : Customer) : bool :=
  match last_stamp_at c with
  | None => true
  | Some t => COOLDOWN <=? now - t
  end.

Definition set_name (n : string) (c : Customer) : Customer :=
  {| customer_id := customer_id c; phone_number := phone_number c; name := n;
     stamps := stamps c; rewards := rewards c;
     last_stamp_at := last_stamp_at c; created_at := created_at c |}.

Definition claim_reward (c : Customer) : Customer :=
  {| customer_id := customer_id c; phone_number := phone_number c; name := name c;
     stamps := stamps c; rewards := rewards c + 1;
     last_stamp_at := last_stamp_at c; created_at := created_at c |}.

Definition add_stamp (now : Z) (c : Customer) : Customer :=
  {| customer_id := customer_id c; phone_number := phone_number c; name := name c;
     stamps := stamps c + 1; rewards := rewards c;
     last_stamp_at := Some now; created_at := created_at c |}.

Definition redeem_reward (c : Customer) : Customer :=
  {| customer_id := customer_id c; phone_number := phone_number c; name := name c;
     stamps := 0; rewards := rewards c - 1;
     last_stamp_at := last_stamp_at c; created_at := created_at c |}.

Definition with_customers (m : gmap string Customer) (s : State) : State :=
  {| customers := m; staff := staff s; audit := audit s |}.

Definition record_audit (e : AuditEntry) (s : State) : State :=
  {| customers := customers s; staff := staff s; audit := audit s ++ [e] |}.

Section Engine.

(** Modelled from the spec: how a new customer gets its short code and
    its first name is left open by the specification. *)
Variable new_customer_id : gmap string Customer -> string -> string.
Variable initial_name : string -> string.

Definition new_customer (m : gmap string Customer) (sender : string) (now : Z) : Customer :=
  {| customer_id := new_customer_id m sender; phone_number := sender;
     name := initial_name sender;
     stamps := 1; rewards := 0; last_stamp_at := None; created_at := now |}.

(** Modelled from the spec: the rows STAMP and REDEEM of the transition
    table for an authorized sender; the result is the new store and the
    outcome that is replied and audited. *)
Definition stamp (id : string) (now : Z) (m : gmap string Customer)
  : gmap string Customer * Outcome :=
  match getById id m with
  | None => (m, Denied CUSTOMER_NOT_FOUND)
  | Some c =>
      if negb (cooldown_elapsed now c) then (m, Denied DUPLICATE_STAMP)
      else if negb (stamps c <? MAX_STAMPS) then (m, Denied ALREADY_MAXED)
      else let c' := add_stamp now c in (upsert c' m, Stamped c')
  end.

Definition redeem (id : string) (m : gmap string Customer)
  : gmap string Customer * Outcome :=
  match getById id m with
  | None => (m, Denied CUSTOMER_NOT_FOUND)
  | Some c =>
      if 1 <=? rewards c
      then let c' := redeem_reward c in (upsert c' m, Redeemed c')
      else (m, Denied NO_REWARD_AVAILABLE)
  end.

Definition outcome_failure (o : Outcome) : option Failure :=
  match o with
  | Denied f => Some f
  | _ => None
  end.

(** Modelled from the spec: one inbound command from [sender] at time
    [now], through the authorization gate and the transition table. *)
Definition step (s : State) (sender : string) (now : Z) (cmd : Command)
  : State * Outcome :=
  match cmd with
  | JOIN =>
      match customers s !! sender with
      | Some c => (s, CurrentStatus c)
      | None =>
          let c := new_customer (customers s) sender now in
          (with_customers (upsert c (customers s)) s, Joined c)
      end
  | STATUS =>
      match customers s !! sender with
      | Some c => (s, CurrentStatus c)
      | None => (s, JoinFirst)
      end
  | REWARD =>
      match customers s !! sender with
      | Some c =>
          if stamps c =? MAX_STAMPS
          then let c' := claim_reward c in
               (with_customers (upsert c' (customers s)) s, RewardClaimed c')
          else (s, Shortfall (MAX_STAMPS - stamps c))
      | None => (s, JoinFirst)
      end
  | UPDATE_NAME n =>
      match customers s !! sender with
      | Some c =>
          let c' := set_name n c in
          (with_customers (upsert c' (customers s)) s, NameUpdated c')
      | None => (s, JoinFirst)
      end
  | STAMP id =>
      let '(m, o) :=
        if bool_decide (sender ∈ staff s) then stamp id now (customers s)
        else (customers s, Denied NOT_STAFF) in
      (record_audit {| actor_phone := sender; action := STAMP_ACTION;
                       target_customer_id := id; result := outcome_failure o;
                       audit_timestamp := now |}
         (with_customers m s), o)
  | REDEEM id =>
      let '(m, o) :=
        if bool_decide (sender ∈ staff s) then redeem id (customers s)
        else (customers s, Denied NOT_STAFF) in
      (record_audit {| actor_phone := sender; action := REDEEM_ACTION;
                       target_customer_id := id; result := outcome_failure o;
                       audit_timestamp := now |}
         (with_customers m s), o)
  end.

(** An inbound message: who sent it, when, and the parsed command. *)
Record Inbound := { sender : string; at_time : Z; command : Command }.

(** Any sequence of operations, applied in order. *)
Fixpoint run (s : State) (ops : list Inbound) : State :=
  match ops with
  | [] => s
  | op :: rest => run (fst (step s (sender op) (at_time op) (command op))) rest
  end.

End Engine.

(** The invariant of section 3 on one record, and on the whole store. *)
Definition customer_ok (c : Customer) : Prop :=
  0 <= stamps c <= 10 /\ 0 <= rewards c.

Definition store_ok (s : State) : Prop :=
  map_Forall (fun _ c => customer_ok c) (customers s).

End LoyaltyEngine.

(* ===================================================================== *)
(** ** Sample inputs                                                      *)
(* ===================================================================== *)

Module Samples.
Import WhatsAppService.

Definition url : string := "http://localhost:8001".

Definition customer_jid : string := "15551234567@s.whatsapp.net".
Definition group_jid : string := "120363025246125224@g.us".
Definition doubled_jid : string := "15551234567@s.whatsapp.net@s.whatsapp.net".

Definition text_message (jid : option string) (echo : bool) (body : string) : WAMessage :=
  {| key := {| remoteJid := jid; fromMe := Some echo; key_id := Some "3EB0A1B2C3" |};
     message := Some {| conversation := Some body; extendedTextMessage := None |};
     messageTimestamp := Some 1700000000%Z |}.

Definition join_message : WAMessage := text_message (Some customer_jid) false "JOIN".
Definition status_message : WAMessage := text_message (Some customer_jid) false "STATUS".
Definition echo_message : WAMessage := text_message (Some customer_jid) true "Welcome!".
Definition message_without_jid : WAMessage := text_message None false "JOIN".

(** A message whose key has no [id] and that has no [messageTimestamp]. *)
Definition bare_message : WAMessage :=
  {| key := {| remoteJid := Some customer_jid; fromMe := Some false; key_id := None |};
     message := Some {| conversation := Some "JOIN"; extendedTextMessage := None |};
     messageTimestamp := None |}.

Definition connected_env : Env :=
  {| sock := Some mkWASocket; connectionStatus := "connected"; history := [] |}.
Definition disconnected_env : Env :=
  {| sock := None; connectionStatus := "disconnected"; history := [] |}.

(** A backend that answers every message with [txt], and one that is
    unreachable. *)
Definition backend_replies (txt : string)
  : list Event -> string -> Payload -> Completion Response :=
  fun _ _ _ => Normal {| data := Some {| reply := Some txt |} |}.
Definition backend_down : list Event -> string -> Payload -> Completion Response :=
  fun _ _ _ => Thrown (Error "connect ECONNREFUSED 127.0.0.1:8001").

(** A socket that delivers, and one whose send is rejected. *)
Definition socket_delivers : list Event -> string -> string -> Completion unit :=
  fun _ _ _ => Normal tt.
Definition socket_rejects : list Event -> string -> string -> Completion unit :=
  fun _ _ _ => Thrown (Error "Connection Closed").

End Samples.

Module LoyaltySamples.
Import LoyaltyEngine.

Local Open Scope Z_scope.

(** The sample store: one customer one stamp short of a reward, and one
    authorized staff member. *)
Definition regular : Customer :=
  {| customer_id := "C1001"; phone_number := "15551234567"; name := "Ada";
     stamps := 9; rewards := 0; last_stamp_at := None; created_at := 1700000000 |}.

Definition sample_state : State :=
  {| customers := {[ "15551234567" := regular ]};
     staff := {[ "15550000001" ]};
     audit := [] |}.

Definition sample_ops : list Inbound :=
  [ {| sender := "15557654321"; at_time := 1700000100; command := JOIN |};
    {| sender := "15550000001"; at_time := 1700000200; command := STAMP "C1001" |};
    {| sender := "15550000001"; at_time := 1700000210; command := STAMP "C1001" |};
    {| sender := "15551234567"; at_time := 1700000300; command := REWARD |};
    {| sender := "15551234567"; at_time := 1700000310; command := UPDATE_NAME "Ada L." |};
    {| sender := "15550000001"; at_time := 1700000400; command := REDEEM "C1001" |};
    {| sender := "15551234567"; at_time := 1700000500; command := STATUS |} ].

Definition short_code (m : gmap string Customer) (sender : string) : string :=
  "C" +:+ sender.

Definition no_name (sender : string) : string := "".

(** The record of the regular customer after [sample_ops]. *)
Definition regular_after : Customer :=
  {| customer_id := "C1001"; phone_number := "15551234567"; name := "Ada L.";
     stamps := 0; rewards := 0; last_stamp_at := Some 1700000200;
     created_at := 1700000000 |}.

End LoyaltySamples.

(* ===================================================================== *)
(** ** whatsapp-service.js: connection state and REST endpoints           *)
(* ===================================================================== *)

Module WhatsAppConnection.

(** The [update] object of a [connection.update] event; the chain
    [lastDisconnect?.error?.output?.statusCode] may break at every link. *)
Record BoomOutput := { statusCode : option Z }.
Record BoomError := { output : option BoomOutput }.
Record LastDisconnect := { error : option BoomError }.
Record ConnectionUpdate := {
  connection : option string;
  lastDisconnect : option LastDisconnect;
  qr : option string
}.

(** The three module-level variables, lines 13-15. *)
Record Globals := {
  sock : option WhatsAppService.WASocket;
  qrCode : option string;
  connectionStatus : string
}.

(** [let sock = null; let qrCode = null; let connectionStatus = 'disconnected'] *)
Definition initial : Globals :=
  {| sock := None; qrCode := None; connectionStatus := "disconnected" |}.

(** What the listeners and [initWhatsApp] do besides assigning the
    module variables. *)
Inductive Effect :=
| ConsoleLog (line : string)
| ConsoleLogClosed (cause : option BoomError) (reconnecting : bool)
| ConsoleErrorInit (e : WhatsAppService.JsError)
| QRCodeGenerate (code : string)
| SetTimeout_initWhatsApp (delay : Z).

(** [(lastDisconnect?.error)?.output?.statusCode] *)
Definition lastDisconnect_error (u : ConnectionUpdate) : option BoomError :=
  match lastDisconnect u with
  | Some l => error l
  | None => None
  end.

Definition lastDisconnect_statusCode (u : ConnectionUpdate) : option Z :=
  match lastDisconnect_error u with
  | Some e =>
      match output e with
      | Some o => statusCode o
      | None => None
      end
  | None => None
  end.

(** [connection === 'close'] and the like, on a string, [undefined] or [null]. *)
Definition strict_eq (v : option string) (s : string) : bool :=
  match v with
  | Some x => String.eqb x s
  | None => false
  end.

Section Connection.

(** [DisconnectReason.loggedOut], a constant of Baileys. *)
Variable loggedOut : Z.

(** [... ?.statusCode !== DisconnectReason.loggedOut], line 37: an absent
    status code differs from every number. *)
Definition shouldReconnect (u : ConnectionUpdate) : bool :=
  match lastDisconnect_statusCode u with
  | Some code => negb (Z.eqb code loggedOut)
  | None => true
  end.

(** The [connection.update] listener, lines 27-49. *)
Definition onConnectionUpdate (u : ConnectionUpdate) (g : Globals)
  : Globals * list Effect :=
  let '(g1, effects1) :=
    if WhatsAppService.truthy (qr u)
    then ({| sock := sock g; qrCode := qr u;
             connectionStatus := connectionStatus g |},
          [ConsoleLog "QR Code generated for WhatsApp connection";
           QRCodeGenerate (default "" (qr u))])
    else (g, []) in
  if strict_eq (connection u) "close" then
    ({| sock := sock g1; qrCode := qrCode g1; connectionStatus := "disconnected" |},
     effects1 ++
     ConsoleLogClosed (lastDisconnect_error u) (shouldReconnect u) ::
     (if shouldReconnect u then [SetTimeout_initWhatsApp 5000] else []))
  else if strict_eq (connection u) "open" then
    ({| sock := sock g1; qrCode := None; connectionStatus := "connected" |},
     effects1 ++ [ConsoleLog "WhatsApp connected successfully!"])
  else (g1, effects1).

(** [async function initWhatsApp()], lines 17-67: [auth] is how
    [useMultiFileAuthState('auth_info')] completes and [made] how
    [makeWASocket(...)] does; registering the listeners has no effect of
    its own. *)
Definition initWhatsApp
    (auth : WhatsAppService.Completion unit)
    (made : WhatsAppService.Completion WhatsAppService.WASocket)
    (g : Globals) : Globals * list Effect :=
  match auth with
  | WhatsAppService.Thrown e =>
      (g, [ConsoleErrorInit e; SetTimeout_initWhatsApp 10000])
  | WhatsAppService.Normal _ =>
      match made with
      | WhatsAppService.Thrown e =>
          (g, [ConsoleErrorInit e; SetTimeout_initWhatsApp 10000])
      | WhatsAppService.Normal s =>
          ({| sock := Some s; qrCode := qrCode g;
              connectionStatus := connectionStatus g |}, [])
      end
  end.

(** What can happen to the module variables: a run of [initWhatsApp]
    (at start-up or from a timer), or a [connection.update] event.  The
    listener is registered on [sock.ev], so an update is only delivered
    once a socket exists. *)
Inductive Occurrence :=
| Init (auth : WhatsAppService.Completion unit)
       (made : WhatsAppService.Completion WhatsAppService.WASocket)
| Update (u : ConnectionUpdate).

Definition occur (g : Globals) (o : Occurrence) : Globals * list Effect :=
  match o with
  | Init auth made => initWhatsApp auth made g
  | Update u =>
      match sock g with
      | Some _ => onConnectionUpdate u g
      | None => (g, [])
      end
  end.

Fixpoint occur_all (g : Globals) (os : list Occurrence) : Globals * list Effect :=
  match os with
  | [] => (g, [])
  | o :: rest =>
      let '(g1, effects1) := occur g o in
      let '(g2, effects2) := occur_all g1 rest in
      (g2, effects1 ++ effects2)
  end.

(** A run of [connection.update] events on an existing socket. *)
Fixpoint update_all (g : Globals) (us : list ConnectionUpdate)
  : Globals * list Effect :=
  match us with
  | [] => (g, [])
  | u :: rest =>
      let '(g1, effects1) := onConnectionUpdate u g in
      let '(g2, effects2) := update_all g1 rest in
      (g2, effects1 ++ effects2)
  end.

End Connection.

(** The environment [sendMessage] and [handleIncomingMessage] run in. *)
Definition env_of (g : Globals) (h : list WhatsAppService.Event) : WhatsAppService.Env :=
  {| WhatsAppService.sock := sock g;
     WhatsAppService.connectionStatus := connectionStatus g;
     WhatsAppService.history := h |}.

(** [GET /qr], lines 116-122: [{ qr: qrCode || null }]. *)
Definition get_qr (g : Globals) : option string :=
  if WhatsAppService.truthy (qrCode g) then qrCode g else None.

(** [GET /status], lines 130-136; [user_of] reads [sock.user]. *)
Record StatusBody (User : Type) := {
  connected : bool;
  status : string;
  user : option User
}.
Arguments connected {User} _.
Arguments status {User} _.
Arguments user {User} _.

Definition get_status {User : Type}
    (user_of : WhatsAppService.WASocket -> option User) (g : Globals)
  : StatusBody User :=
  {| connected := String.eqb (connectionStatus g) "connected";
     status := connectionStatus g;
     user := match sock g with
             | Some s => user_of s
             | None => None
             end |}.

(** The number of re-initialisations scheduled with [delay] among some
    effects. *)
Fixpoint timers (delay : Z) (effects : list Effect) : nat :=
  match effects with
  | [] => 0
  | SetTimeout_initWhatsApp d :: rest =>
      (if Z.eqb d delay then 1 else 0) + timers delay rest
  | _ :: rest => timers delay rest
  end.

(** The module variables agree: a 'connected' status has a socket. *)
Definition consistent (g : Globals) : Prop :=
  (connectionStatus g = "connected" /\ sock g <> None) \/
  connectionStatus g = "disconnected".

(** A value that stayed what it was, or was cleared. *)
Definition q_or_none (before after : option string) : Prop :=
  after = before \/ after = None.

(** Sample updates. *)
Definition qr_update (code : string) : ConnectionUpdate :=
  {| connection := None; lastDisconnect := None; qr := Some code |}.
Definition open_update : ConnectionUpdate :=
  {| connection := Some "open"; lastDisconnect := None; qr := None |}.
Definition connecting_update : ConnectionUpdate :=
  {| connection := Some "connecting"; lastDisconnect := None; qr := None |}.
Definition close_update (code : Z) : ConnectionUpdate :=
  {| connection := Some "close";
     lastDisconnect :=
       Some {| error := Some {| output := Some {| statusCode := Some code |} |} |};
     qr := None |}.
Definition with_socket : Globals :=
  {| sock := Some WhatsAppService.mkWASocket; qrCode := None;
     connectionStatus := "disconnected" |}.

End WhatsAppConnection.

(* ===================================================================== *)
(** ** whatsapp-service.js: a batch of messages                           *)
(* ===================================================================== *)

Module WhatsAppBatch.
Import WhatsAppService.

(** The test of line 54, [!message.key.fromMe && message.message]. *)
Definition actionable (m : WAMessage) : bool :=
  negb (truthy_bool (fromMe (key m))) && present (message m).

(** The request one message gives rise to. *)
Definition forwarded (FASTAPI_URL : string) (m : WAMessage) : list (string * Payload) :=
  match remoteJid (key m), message m with
  | Some jid, Some c =>
      [(MESSAGE_URL FASTAPI_URL, mkPayload (normalize jid) (messageText c) m)]
  | _, _ => []
  end.

Definition has_sender (m : WAMessage) : bool := present (remoteJid (key m)).

(** A sample of each kind of sender address. *)
Definition group_message : WAMessage :=
  Samples.text_message (Some Samples.group_jid) false "STATUS".

End WhatsAppBatch.

(* ===================================================================== *)
(** ** Facts about [replace] and [includes]                               *)
(* ===================================================================== *)

Module JsStringFacts.
Import JsString.

Local Arguments String.append !_ _ / : simpl nomatch.

Lemma strip_prefix_app (pat rest : string) :
  strip_prefix pat (pat +:+ rest) = Some rest.
Proof.
  induction pat as [|p pat IH]; simpl; [reflexivity|].
  now rewrite Ascii.eqb_refl.
Qed.

Lemma strip_prefix_Some (pat s rest : string) :
  strip_prefix pat s = Some rest -> s = pat +:+ rest.
Proof.
  revert s; induction pat as [|p pat IH]; intros s H; simpl in *.
  - congruence.
  - destruct s as [|c s]; [discriminate|].
    destruct (Ascii.eqb_spec p c) as [->|]; [|discriminate].
    f_equal. now apply IH.
Qed.

Lemma count_char_app (a : ascii) (s t : string) :
  count_char a (s +:+ t) = (count_char a s + count_char a t)%nat.
Proof. induction s as [|c s IH]; simpl; [reflexivity|]. rewrite IH. lia. Qed.

(** A string without the first character of the pattern has no
    occurrence of the pattern. *)
Lemma includes_absent_char (p : ascii) (pat s : string) :
  count_char p s = 0%nat -> includes (String p pat) s = false.
Proof.
  induction s as [|c s IH]; intros H; [reflexivity|].
  simpl in H. cbn [includes strip_prefix].
  destruct (Ascii.eqb p c); [discriminate|]. auto.
Qed.

Lemma replace_not_included (pat rep s : string) :
  includes pat s = false -> replace pat rep s = s.
Proof.
  induction s as [|c s IH]; cbn [includes replace]; intros H.
  - destruct (strip_prefix pat ""); [discriminate|reflexivity].
  - destruct (strip_prefix pat (String c s)); [discriminate|].
    f_equal. auto.
Qed.

(** Behind a prefix that is free of the pattern's first character, the
    first occurrence is the one that follows the prefix. *)
Lemma replace_after_clean_prefix (p : ascii) (pat rep pre post : string) :
  count_char p pre = 0%nat ->
  replace (String p pat) rep (pre +:+ String p pat +:+ post) = pre +:+ rep +:+ post.
Proof.
  induction pre as [|c pre IH]; intros H.
  - change ("" +:+ String p pat +:+ post) with (String p (pat +:+ post)).
    cbn [replace strip_prefix].
    now rewrite Ascii.eqb_refl, strip_prefix_app.
  - simpl in H.
    change (String c pre +:+ String p pat +:+ post)
      with (String c (pre +:+ String p pat +:+ post)).
    cbn [replace strip_prefix].
    destruct (Ascii.eqb p c); [discriminate|].
    simpl. f_equal. auto.
Qed.

(** Removing an occurrence removes one copy of its first character. *)
Lemma replace_removes_first_char (p : ascii) (pat s : string) :
  replace (String p pat) "" s = s \/
  (count_char p (replace (String p pat) "" s) < count_char p s)%nat.
Proof.
  induction s as [|c s IH].
  - left; reflexivity.
  - cbn [replace].
    destruct (strip_prefix (String p pat) (String c s)) as [rest|] eqn:E.
    + right. apply strip_prefix_Some in E. rewrite E.
      change ("" +:+ rest) with rest.
      rewrite count_char_app. simpl. rewrite Ascii.eqb_refl. lia.
    + destruct IH as [IH|IH]; [left; now rewrite IH|right].
      simpl. lia.
Qed.

Lemma digit_is_not_at (c : ascii) :
  is_digit c = true -> Ascii.eqb "@" c = false.
Proof.
  intros H. destruct (Ascii.eqb_spec "@"%char c) as [<-|]; [|reflexivity].
  discriminate H.
Qed.

Lemma digits_have_no_at (d : string) :
  all_chars is_digit d = true -> count_char "@" d = 0%nat.
Proof.
  induction d as [|c d IH]; cbn [all_chars count_char]; [reflexivity|].
  intros [Hc Hd]%andb_prop. rewrite (digit_is_not_at c Hc). auto.
Qed.

Lemma phone_shaped_has_no_at (p : string) :
  is_phone_shaped p = true -> count_char "@" p = 0%nat.
Proof.
  destruct p as [|c p]; [reflexivity|].
  unfold is_phone_shaped.
  destruct (Ascii.eqb_spec c "+"%char) as [->|Hc].
  - intros H. cbn [count_char]. now apply digits_have_no_at.
  - intros H. apply digits_have_no_at.
    destruct c as [[] [] [] [] [] [] [] []];
      first [exact H | exfalso; apply Hc; reflexivity].
Qed.

End JsStringFacts.

(* ===================================================================== *)
(** ** Facts about the service                                            *)
(* ===================================================================== *)

Module WhatsAppServiceFacts.
Import JsString JsStringFacts WhatsAppService.

Lemma advance_nil (env : Env) : advance env [] = env.
Proof. destruct env; unfold advance; simpl. now rewrite app_nil_r. Qed.

Lemma isConnected_advance (env : Env) (evs : list Event) :
  isConnected (advance env evs) = isConnected env.
Proof. reflexivity. Qed.

Lemma outbound_app (a b : list Event) : outbound (a ++ b) = outbound a ++ outbound b.
Proof.
  induction a as [|ev a IH]; [reflexivity|].
  destruct ev; simpl; now rewrite IH.
Qed.

Lemma posts_app (a b : list Event) : posts (a ++ b) = posts a ++ posts b.
Proof.
  induction a as [|ev a IH]; [reflexivity|].
  destruct ev; simpl; now rewrite IH.
Qed.

(** *** The sender address: [normalize] and [jid_of] *)

Lemma normalize_without_suffix (x : string) :
  includes USER_SUFFIX x = false -> normalize x = x.
Proof. apply replace_not_included. Qed.

Lemma normalize_without_at (x : string) :
  count_char "@" x = 0%nat -> normalize x = x.
Proof.
  intros H. apply normalize_without_suffix.
  now apply includes_absent_char.
Qed.

Lemma normalize_user_jid (p : string) :
  count_char "@" p = 0%nat -> normalize (p +:+ USER_SUFFIX) = p.
Proof.
  intros H. unfold normalize, USER_SUFFIX.
  pose proof (replace_after_clean_prefix "@" "s.whatsapp.net" "" p "" H) as R.
  change ("" +:+ "")%string with ""%string in R.
  change ("@s.whatsapp.net" +:+ "")%string with "@s.whatsapp.net"%string in R.
  rewrite R. clear R H.
  induction p as [|c p IH]; [reflexivity|].
  change (String c p +:+ "") with (String c (p +:+ "")). now rewrite IH.
Qed.

Lemma jid_of_without_at (p : string) :
  count_char "@" p = 0%nat -> jid_of p = p +:+ USER_SUFFIX.
Proof.
  intros H. unfold jid_of.
  now rewrite (includes_absent_char "@" "" p H).
Qed.

(** C4, as the specification states it, fails: [replace] removes one
    occurrence of the suffix, so an address that carries it twice loses
    one copy at each application. *)
Lemma normalize_not_idempotent :
  normalize (normalize Samples.doubled_jid) <> normalize Samples.doubled_jid.
Proof. vm_compute. discriminate. Qed.

(** C4 (amended): on every address with at most one ['@'], as every
    WhatsApp JID has, stripping the suffix twice is the same as stripping
    it once. *)
Theorem normalize_idempotent_single_at (x : string) :
  (count_char "@" x <= 1)%nat ->
  normalize (normalize x) = normalize x.
Proof.
  intros Hx.
  destruct (replace_removes_first_char "@" "s.whatsapp.net" x) as [Hsame|Hless].
  - unfold normalize, USER_SUFFIX. now rewrite !Hsame.
  - apply normalize_without_at.
    unfold normalize, USER_SUFFIX. lia.
Qed.

Lemma normalize_idempotent_single_at_witness :
  (count_char "@" Samples.customer_jid <= 1)%nat /\
  normalize (normalize Samples.customer_jid) = normalize Samples.customer_jid.
Proof.
  split.
  - vm_compute. lia.
  - apply (normalize_idempotent_single_at Samples.customer_jid). vm_compute. lia.
Defined.

(** C5, as the specification states it, fails: nothing but the user
    suffix is stripped, so the address of a group chat keeps its ['@'],
    its letters and its dot. *)
Lemma normalize_keeps_non_digits :
  normalize Samples.group_jid = Samples.group_jid /\
  is_phone_shaped (normalize Samples.group_jid) = false.
Proof. split; vm_compute; reflexivity. Qed.

(** C5 (amended): the only stripping is that of the first
    ['@s.whatsapp.net'].  An address made of a phone-shaped number (digits,
    possibly after one leading ['+']) and that suffix is mapped to the
    number, which is phone-shaped; an address without that suffix is
    returned as it is. *)
Theorem normalize_strips_user_suffix_only (x : string) :
  (forall p, is_phone_shaped p = true -> x = p +:+ USER_SUFFIX ->
             normalize x = p /\ is_phone_shaped (normalize x) = true) /\
  (includes USER_SUFFIX x = false -> normalize x = x).
Proof.
  split.
  - intros p Hp ->.
    rewrite (normalize_user_jid p (phone_shaped_has_no_at p Hp)). auto.
  - apply normalize_without_suffix.
Qed.

Lemma normalize_strips_user_suffix_only_witness :
  (normalize Samples.customer_jid = "15551234567" /\
   is_phone_shaped (normalize Samples.customer_jid) = true) /\
  normalize Samples.group_jid = Samples.group_jid.
Proof.
  split.
  - apply (proj1 (normalize_strips_user_suffix_only Samples.customer_jid)
             "15551234567"); reflexivity.
  - apply (proj2 (normalize_strips_user_suffix_only Samples.group_jid)).
    reflexivity.
Defined.

Section ServiceFacts.

Variable FASTAPI_URL : string.
Variable axios_post : list Event -> string -> Payload -> Completion Response.
Variable sock_sendMessage : list Event -> string -> string -> Completion unit.

Local Abbreviation sendMessage := (sendMessage sock_sendMessage).
Local Abbreviation handleIncomingMessage :=
  (handleIncomingMessage FASTAPI_URL axios_post sock_sendMessage).
Local Abbreviation forEachMessage :=
  (forEachMessage FASTAPI_URL axios_post sock_sendMessage).
Local Abbreviation onMessagesUpsert :=
  (onMessagesUpsert FASTAPI_URL axios_post sock_sendMessage).

(** [sendMessage], path by path. *)
Lemma sendMessage_unfold (phoneNumber : option string) (txt : string) (env : Env) :
  sendMessage phoneNumber txt env =
  if isConnected env then
    match phoneNumber with
    | None =>
        (Normal {| success := false;
                   error := Some (error_message (cannot_read "includes")) |},
         [ConsoleError SENDING_ERROR (cannot_read "includes")])
    | Some number =>
        match sock_sendMessage (history env) (jid_of number) txt with
        | Normal _ =>
            (Normal {| success := true; error := None |},
             [SockSendMessage (jid_of number) txt;
              ConsoleLog (sent_line number txt)])
        | Thrown e =>
            (Normal {| success := false; error := Some (error_message e) |},
             [SockSendMessage (jid_of number) txt;
              ConsoleError SENDING_ERROR e])
        end
    end
  else
    (Normal {| success := false; error := Some (error_message NOT_CONNECTED) |},
     [ConsoleError SENDING_ERROR NOT_CONNECTED]).
Proof.
  unfold WhatsAppService.sendMessage, try_catch, bind, ask.
  rewrite !advance_nil.
  destruct (isConnected env) eqn:Hc; cbn -[jid_of String.append]; [|reflexivity].
  destruct phoneNumber as [number|]; cbn -[jid_of String.append]; [|reflexivity].
  rewrite !app_nil_r.
  destruct (sock_sendMessage (history env) (jid_of number) txt) as [[]|e];
    reflexivity.
Qed.

Lemma sendMessage_normal (phoneNumber : option string) (txt : string) (env : Env) :
  exists r, fst (sendMessage phoneNumber txt env) = Normal r.
Proof.
  rewrite sendMessage_unfold.
  destruct (isConnected env); [|eauto].
  destruct phoneNumber as [number|]; [|eauto].
  destruct (sock_sendMessage _ _ _); eauto.
Qed.

(** At most one message reaches the socket, for the JID built from the
    number, and none when the service is not connected. *)
Lemma sendMessage_outbound (number txt : string) (env : Env) :
  outbound (snd (sendMessage (Some number) txt env)) =
  if isConnected env then [(jid_of number, txt)] else [].
Proof.
  rewrite sendMessage_unfold.
  destruct (isConnected env); [|reflexivity].
  destruct (sock_sendMessage _ _ _); reflexivity.
Qed.

Lemma sendMessage_posts (phoneNumber : option string) (txt : string) (env : Env) :
  posts (snd (sendMessage phoneNumber txt env)) = [].
Proof.
  rewrite sendMessage_unfold.
  destruct (isConnected env); [|reflexivity].
  destruct phoneNumber; [|reflexivity].
  destruct (sock_sendMessage _ _ _); reflexivity.
Qed.

(** A call whose result is dropped: [await sendMessage(...)] as a
    statement. *)
Lemma sendMessage_statement (phoneNumber : option string) (txt : string) (env : Env) :
  (sendMessage phoneNumber txt ;;; ret tt)%js env =
  (Normal tt, snd (sendMessage phoneNumber txt env)).
Proof.
  unfold bind, ret.
  destruct (sendMessage_normal phoneNumber txt env) as [r Hr].
  destruct (sendMessage phoneNumber txt env) as [c evs]; simpl in *; subst c.
  now rewrite app_nil_r.
Qed.

(** The [catch] block. *)
Lemma catch_with_jid (m : WAMessage) (jid : string) (e : JsError) (env : Env) :
  remoteJid (key m) = Some jid ->
  handleIncomingMessage_catch sock_sendMessage m e env =
  (Normal tt,
   ConsoleError HANDLING_ERROR e ::
   snd (sendMessage (Some (normalize jid)) ERROR_REPLY
          (advance env [ConsoleError HANDLING_ERROR e]))).
Proof.
  intros Hjid. unfold handleIncomingMessage_catch.
  unfold bind at 1. unfold console_error, emit.
  unfold bind at 1. rewrite Hjid. cbn [get_or_throw ret].
  rewrite advance_nil, sendMessage_statement. reflexivity.
Qed.

Lemma catch_without_jid (m : WAMessage) (e : JsError) (env : Env) :
  remoteJid (key m) = None ->
  handleIncomingMessage_catch sock_sendMessage m e env =
  (Thrown (cannot_read "replace"), [ConsoleError HANDLING_ERROR e]).
Proof.
  intros Hjid. unfold handleIncomingMessage_catch, bind, console_error, emit.
  rewrite Hjid. reflexivity.
Qed.

(** The [try] block. *)
Lemma try_without_jid (m : WAMessage) (env : Env) :
  remoteJid (key m) = None ->
  handleIncomingMessage_try FASTAPI_URL axios_post sock_sendMessage m env =
  (Thrown (cannot_read "replace"), []).
Proof.
  intros Hjid. unfold handleIncomingMessage_try, bind. now rewrite Hjid.
Qed.

Lemma try_without_content (m : WAMessage) (jid : string) (env : Env) :
  remoteJid (key m) = Some jid -> message m = None ->
  handleIncomingMessage_try FASTAPI_URL axios_post sock_sendMessage m env =
  (Thrown (cannot_read "conversation"), []).
Proof.
  intros Hjid Hc. unfold handleIncomingMessage_try, bind.
  now rewrite Hjid, Hc.
Qed.

Lemma try_with_content (m : WAMessage) (jid : string) (c : MessageContent) (env : Env) :
  remoteJid (key m) = Some jid -> message m = Some c ->
  let phoneNumber := normalize jid in
  let body := mkPayload phoneNumber (messageText c) m in
  let log := ConsoleLog (received_line phoneNumber (messageText c)) in
  let post := AxiosPost (MESSAGE_URL FASTAPI_URL) body in
  handleIncomingMessage_try FASTAPI_URL axios_post sock_sendMessage m env =
  match axios_post (history env ++ [log]) (MESSAGE_URL FASTAPI_URL) body with
  | Thrown e => (Thrown e, [log; post])
  | Normal resp =>
      match data resp with
      | None => (Thrown (cannot_read "reply"), [log; post])
      | Some d =>
          if truthy (reply d)
          then (Normal tt,
                [log; post] ++
                snd (sendMessage (Some phoneNumber) (default "" (reply d))
                       (advance env [log; post])))
          else (Normal tt, [log; post])
      end
  end.
Proof.
  intros Hjid Hc phoneNumber body log post.
  unfold handleIncomingMessage_try.
  unfold bind at 1. rewrite Hjid. cbn [get_or_throw ret]. rewrite advance_nil.
  unfold bind at 1. rewrite Hc. cbn [get_or_throw ret]. rewrite advance_nil.
  unfold bind at 1. unfold console_log, emit.
  unfold bind at 1. unfold await_axios_post at 1. cbn [history advance].
  fold phoneNumber. fold body. fold log. fold post.
  destruct (axios_post (history env ++ [log]) (MESSAGE_URL FASTAPI_URL) body)
    as [resp|e]; [|reflexivity].
  unfold bind at 1.
  destruct (data resp) as [d|]; cbn [get_or_throw ret throw]; [|reflexivity].
  replace (advance (advance (advance env [log]) [post]) [])
    with (advance env [log; post])
    by (unfold advance; cbn; now rewrite app_nil_r, <- app_assoc).
  destruct (truthy (reply d)); [|reflexivity].
  rewrite sendMessage_statement. reflexivity.
Qed.

(** *** [handleIncomingMessage], path by path *)

Lemma handle_without_jid (m : WAMessage) (env : Env) :
  remoteJid (key m) = None ->
  handleIncomingMessage m env =
  (Thrown (cannot_read "replace"),
   [ConsoleError HANDLING_ERROR (cannot_read "replace")]).
Proof.
  intros Hjid. unfold WhatsAppService.handleIncomingMessage, try_catch.
  rewrite try_without_jid by assumption.
  now rewrite catch_without_jid.
Qed.

Lemma handle_without_content (m : WAMessage) (jid : string) (env : Env) :
  remoteJid (key m) = Some jid -> message m = None ->
  let failure := ConsoleError HANDLING_ERROR (cannot_read "conversation") in
  handleIncomingMessage m env =
  (Normal tt,
   failure :: snd (sendMessage (Some (normalize jid)) ERROR_REPLY
                     (advance env [failure]))).
Proof.
  intros Hjid Hc failure. unfold WhatsAppService.handleIncomingMessage, try_catch.
  rewrite (try_without_content m jid) by assumption.
  rewrite (catch_with_jid m jid) by assumption.
  rewrite advance_nil. reflexivity.
Qed.

Lemma handle_forward_failed (m : WAMessage) (jid : string) (c : MessageContent)
    (env : Env) (e : JsError) :
  remoteJid (key m) = Some jid -> message m = Some c ->
  let phoneNumber := normalize jid in
  let body := mkPayload phoneNumber (messageText c) m in
  let log := ConsoleLog (received_line phoneNumber (messageText c)) in
  let post := AxiosPost (MESSAGE_URL FASTAPI_URL) body in
  let failure := ConsoleError HANDLING_ERROR e in
  forward_failure (axios_post (history env ++ [log]) (MESSAGE_URL FASTAPI_URL) body)
    = Some e ->
  handleIncomingMessage m env =
  (Normal tt,
   [log; post; failure] ++
   snd (sendMessage (Some phoneNumber) ERROR_REPLY (advance env [log; post; failure]))).
Proof.
  intros Hjid Hc phoneNumber body log post failure Hfail.
  unfold WhatsAppService.handleIncomingMessage, try_catch.
  rewrite (try_with_content m jid c) by assumption.
  fold phoneNumber. fold body. fold log. fold post.
  assert (Hcatch :
    (let '(r, evs') :=
       handleIncomingMessage_catch sock_sendMessage m e (advance env [log; post])
     in (r, [log; post] ++ evs')) =
    (Normal tt,
     [log; post; failure] ++
     snd (sendMessage (Some phoneNumber) ERROR_REPLY
            (advance env [log; post; failure])))).
  { rewrite (catch_with_jid m jid) by assumption.
    fold phoneNumber. fold failure.
    replace (advance (advance env [log; post]) [failure])
      with (advance env [log; post; failure])
      by (unfold advance; cbn; now rewrite <- app_assoc).
    reflexivity. }
  destruct (axios_post (history env ++ [log]) (MESSAGE_URL FASTAPI_URL) body)
    as [resp|e']; cbn [forward_failure] in Hfail.
  - destruct (data resp) as [d|]; [discriminate|].
    injection Hfail as <-. exact Hcatch.
  - injection Hfail as <-. exact Hcatch.
Qed.

Lemma handle_forward_answered (m : WAMessage) (jid : string) (c : MessageContent)
    (env : Env) (resp : Response) (d : ResponseData) :
  remoteJid (key m) = Some jid -> message m = Some c ->
  let phoneNumber := normalize jid in
  let body := mkPayload phoneNumber (messageText c) m in
  let log := ConsoleLog (received_line phoneNumber (messageText c)) in
  let post := AxiosPost (MESSAGE_URL FASTAPI_URL) body in
  axios_post (history env ++ [log]) (MESSAGE_URL FASTAPI_URL) body = Normal resp ->
  data resp = Some d ->
  handleIncomingMessage m env =
  (Normal tt,
   [log; post] ++
   (if truthy (reply d)
    then snd (sendMessage (Some phoneNumber) (default "" (reply d))
                (advance env [log; post]))
    else [])).
Proof.
  intros Hjid Hc phoneNumber body log post Hpost Hdata.
  unfold WhatsAppService.handleIncomingMessage, try_catch.
  rewrite (try_with_content m jid c) by assumption.
  fold phoneNumber. fold body. fold log. fold post.
  rewrite Hpost, Hdata.
  destruct (truthy (reply d)); reflexivity.
Qed.

(** With a sender address the function always completes normally. *)
Lemma handle_with_jid_normal (m : WAMessage) (jid : string) (env : Env) :
  remoteJid (key m) = Some jid ->
  fst (handleIncomingMessage m env) = Normal tt.
Proof.
  intros Hjid.
  destruct (message m) as [c|] eqn:Hc.
  - destruct (forward_failure
                (axios_post
                   (history env ++
                    [ConsoleLog (received_line (normalize jid) (messageText c))])
                   (MESSAGE_URL FASTAPI_URL)
                   (mkPayload (normalize jid) (messageText c) m))) as [e|] eqn:Hf.
    + now rewrite (handle_forward_failed m jid c env e).
    + unfold forward_failure in Hf.
      destruct (axios_post _ _ _) as [resp|] eqn:Hpost; [|discriminate].
      destruct (data resp) as [d|] eqn:Hd; [|discriminate].
      now rewrite (handle_forward_answered m jid c env resp d).
  - now rewrite (handle_without_content m jid env).
Qed.

(** Whatever happens, at most one message is handed to the socket, and
    it is addressed to the JID built from the normalized sender. *)
Lemma handle_outbound_addressed (m : WAMessage) (jid : string) (env : Env) :
  remoteJid (key m) = Some jid ->
  outbound (snd (handleIncomingMessage m env)) = [] \/
  exists txt, outbound (snd (handleIncomingMessage m env))
              = [(jid_of (normalize jid), txt)].
Proof.
  intros Hjid.
  destruct (message m) as [c|] eqn:Hc.
  - destruct (forward_failure
                (axios_post
                   (history env ++
                    [ConsoleLog (received_line (normalize jid) (messageText c))])
                   (MESSAGE_URL FASTAPI_URL)
                   (mkPayload (normalize jid) (messageText c) m))) as [e|] eqn:Hf.
    + rewrite (handle_forward_failed m jid c env e) by assumption.
      cbn [snd]. rewrite outbound_app, sendMessage_outbound, isConnected_advance.
      cbn. destruct (isConnected env); eauto.
    + unfold forward_failure in Hf.
      destruct (axios_post _ _ _) as [resp|] eqn:Hpost; [|discriminate].
      destruct (data resp) as [d|] eqn:Hd; [|discriminate].
      rewrite (handle_forward_answered m jid c env resp d) by assumption.
      cbn [snd]. rewrite outbound_app.
      destruct (truthy (reply d)); [|now left].
      rewrite sendMessage_outbound, isConnected_advance. cbn.
      destruct (isConnected env); eauto.
  - rewrite (handle_without_content m jid env) by assumption.
    cbn [snd outbound]. rewrite sendMessage_outbound, isConnected_advance.
    destruct (isConnected env); eauto.
Qed.

Lemma handle_posts (m : WAMessage) (env : Env) :
  posts (snd (handleIncomingMessage m env)) =
  match remoteJid (key m), message m with
  | Some jid, Some c =>
      [(MESSAGE_URL FASTAPI_URL, mkPayload (normalize jid) (messageText c) m)]
  | _, _ => []
  end.
Proof.
  destruct (remoteJid (key m)) as [jid|] eqn:Hjid.
  - destruct (message m) as [c|] eqn:Hc.
    + destruct (forward_failure
                  (axios_post
                     (history env ++
                      [ConsoleLog (received_line (normalize jid) (messageText c))])
                     (MESSAGE_URL FASTAPI_URL)
                     (mkPayload (normalize jid) (messageText c) m))) as [e|] eqn:Hf.
      * rewrite (handle_forward_failed m jid c env e) by assumption.
        cbn [snd]. rewrite posts_app, sendMessage_posts. reflexivity.
      * unfold forward_failure in Hf.
        destruct (axios_post _ _ _) as [resp|] eqn:Hpost; [|discriminate].
        destruct (data resp) as [d|] eqn:Hd; [|discriminate].
        rewrite (handle_forward_answered m jid c env resp d) by assumption.
        cbn [snd]. rewrite posts_app.
        destruct (truthy (reply d)); [rewrite sendMessage_posts|]; reflexivity.
    + rewrite (handle_without_content m jid env) by assumption.
      cbn [snd posts]. apply sendMessage_posts.
  - now rewrite handle_without_jid.
Qed.

(** A message that the listener does not hand to the handler leaves no
    trace in the batch. *)
Lemma forEachMessage_skip (before after : list WAMessage) (m : WAMessage) (env : Env) :
  negb (truthy_bool (fromMe (key m))) && present (message m) = false ->
  forEachMessage (before ++ m :: after) env = forEachMessage (before ++ after) env.
Proof.
  intros Hskip. revert env.
  induction before as [|b before IH]; intros env.
  - cbn [app WhatsAppService.forEachMessage]. rewrite Hskip.
    unfold bind at 1. cbn [ret]. rewrite advance_nil.
    now destruct (forEachMessage after env).
  - cbn [app WhatsAppService.forEachMessage].
    unfold bind.
    destruct ((if negb (truthy_bool (fromMe (key b))) && present (message b)
               then handleIncomingMessage b else ret tt) env) as [[[]|e] evs];
      [|reflexivity].
    now rewrite IH.
Qed.

(** *** The claims about the service *)

(** C1: a message whose key carries no [remoteJid] makes the [try] block
    throw at its first line and the [catch] block throw again at the same
    expression, so [handleIncomingMessage] itself throws; in the
    [messages.upsert] listener the error ends the batch, so that the
    messages after it are never handled. *)
Theorem handleIncomingMessage_throws_without_remoteJid
    (env : Env) (later : list WAMessage) :
  handleIncomingMessage Samples.message_without_jid env =
    (Thrown (cannot_read "replace"),
     [ConsoleError HANDLING_ERROR (cannot_read "replace")]) /\
  onMessagesUpsert (Samples.message_without_jid :: later) "notify" env =
    (Thrown (cannot_read "replace"),
     [ConsoleError HANDLING_ERROR (cannot_read "replace")]).
Proof.
  assert (H : handleIncomingMessage Samples.message_without_jid env =
              (Thrown (cannot_read "replace"),
               [ConsoleError HANDLING_ERROR (cannot_read "replace")]))
    by now apply handle_without_jid.
  split; [exact H|].
  unfold WhatsAppService.onMessagesUpsert.
  change (String.eqb "notify" "notify") with true.
  cbn [WhatsAppService.forEachMessage]. unfold bind at 1.
  change (negb (truthy_bool (fromMe (key Samples.message_without_jid)))
          && present (message Samples.message_without_jid)) with true.
  cbv iota. now rewrite H.
Qed.

(** C2 (amended): when the forward to the backend fails (axios throws, or
    the response has no data object to read [reply] from), the handler
    logs the error and calls [sendMessage] with the normalized sender and
    the fixed error text, and completes normally; that call hands the
    error text to the socket, addressed to the sender, exactly when the
    service is connected. *)
Theorem error_reply_when_forward_fails
    (m : WAMessage) (jid : string) (c : MessageContent) (env : Env) (e : JsError) :
  remoteJid (key m) = Some jid -> message m = Some c ->
  let phoneNumber := normalize jid in
  let body := mkPayload phoneNumber (messageText c) m in
  let log := ConsoleLog (received_line phoneNumber (messageText c)) in
  let post := AxiosPost (MESSAGE_URL FASTAPI_URL) body in
  let failure := ConsoleError HANDLING_ERROR e in
  forward_failure (axios_post (history env ++ [log]) (MESSAGE_URL FASTAPI_URL) body)
    = Some e ->
  handleIncomingMessage m env =
    (Normal tt,
     [log; post; failure] ++
     snd (sendMessage (Some phoneNumber) ERROR_REPLY
            (advance env [log; post; failure]))) /\
  outbound (snd (handleIncomingMessage m env)) =
    if isConnected env then [(jid_of phoneNumber, ERROR_REPLY)] else [].
Proof.
  intros Hjid Hc phoneNumber body log post failure Hfail.
  pose proof (handle_forward_failed m jid c env e Hjid Hc Hfail) as H.
  split; [exact H|].
  rewrite H. cbn [snd].
  now rewrite outbound_app, sendMessage_outbound, isConnected_advance.
Qed.

(** C7 (amended): for a message with a sender address, at most one
    message is handed to the socket, and it is addressed to the JID built
    from the normalized sender.  When the backend answered with a data
    object, that message exists exactly when [reply] is non-empty and the
    service is connected, and it carries the reply. *)
Theorem reply_sent_iff_reply_and_connected
    (m : WAMessage) (jid : string) (env : Env) :
  remoteJid (key m) = Some jid ->
  (outbound (snd (handleIncomingMessage m env)) = [] \/
   exists txt, outbound (snd (handleIncomingMessage m env))
               = [(jid_of (normalize jid), txt)]) /\
  (forall c resp d,
     message m = Some c ->
     axios_post
       (history env ++ [ConsoleLog (received_line (normalize jid) (messageText c))])
       (MESSAGE_URL FASTAPI_URL)
       (mkPayload (normalize jid) (messageText c) m) = Normal resp ->
     data resp = Some d ->
     outbound (snd (handleIncomingMessage m env)) =
       if truthy (reply d) && isConnected env
       then [(jid_of (normalize jid), default "" (reply d))]
       else []).
Proof.
  intros Hjid. split; [now apply handle_outbound_addressed|].
  intros c resp d Hc Hpost Hd.
  rewrite (handle_forward_answered m jid c env resp d) by assumption.
  cbn [snd]. rewrite outbound_app.
  destruct (truthy (reply d)); [|reflexivity].
  now rewrite sendMessage_outbound, isConnected_advance.
Qed.

(** C8 (amended): for a message with a sender address and a content the
    handler posts exactly one body to the backend.  Its [phone_number] is
    the normalized sender and its [message] the message text (the
    conversation text when that is non-empty, else the extended text when
    that is non-empty, else the empty string), both strings; [message_id]
    and [timestamp] are [message.key.id] and [message.messageTimestamp]
    passed on as they are, so the body carries all four fields exactly
    when the message has both. *)
Theorem forwarded_payload_carries_key_fields
    (m : WAMessage) (jid : string) (c : MessageContent) (env : Env) :
  remoteJid (key m) = Some jid -> message m = Some c ->
  posts (snd (handleIncomingMessage m env)) =
    [(MESSAGE_URL FASTAPI_URL,
      {| phone_number := normalize jid;
         payload_message := messageText c;
         message_id := key_id (key m);
         timestamp := messageTimestamp m |})] /\
  messageText c =
    match conversation c with
    | Some s => if String.eqb s "" then
                  match optional_text (extendedTextMessage c) with
                  | Some t => t
                  | None => ""
                  end
                else s
    | None => match optional_text (extendedTextMessage c) with
              | Some t => t
              | None => ""
              end
    end /\
  (carried_fields
     {| phone_number := normalize jid;
        payload_message := messageText c;
        message_id := key_id (key m);
        timestamp := messageTimestamp m |} = FOUR_FIELDS
   <-> key_id (key m) <> None /\ messageTimestamp m <> None).
Proof.
  intros Hjid Hc. split; [|split].
  - rewrite handle_posts, Hjid, Hc. reflexivity.
  - unfold messageText, js_or, truthy.
    destruct (conversation c) as [s|];
      destruct (optional_text (extendedTextMessage c)) as [t|];
      repeat match goal with
             | |- context [String.eqb ?x ""] =>
                 destruct (String.eqb_spec x ""); subst; cbn
             end;
      first [reflexivity | congruence].
  - unfold carried_fields, FOUR_FIELDS. cbn [message_id timestamp].
    destruct (key_id (key m)); destruct (messageTimestamp m); cbn;
      split; try discriminate; try (intros [H1 H2]; congruence);
      intros _; split; discriminate.
Qed.

(** C9: [sendMessage] never throws: for every phone number (present or
    not) and text it completes normally with a result object; when the
    socket is absent or the status is not 'connected' the result is
    [{ success: false, error: 'WhatsApp not connected' }] and nothing is
    handed to the socket. *)
Theorem sendMessage_never_throws
    (phoneNumber : option string) (txt : string) (env : Env) :
  exists r evs,
    sendMessage phoneNumber txt env = (Normal r, evs) /\
    (isConnected env = false ->
       r = {| success := false; error := Some "WhatsApp not connected" |} /\
       outbound evs = []).
Proof.
  rewrite sendMessage_unfold.
  destruct (isConnected env).
  - destruct phoneNumber as [number|].
    + destruct (sock_sendMessage _ _ _);
        eexists _, _; (split; [reflexivity|discriminate]).
    + eexists _, _; split; [reflexivity|discriminate].
  - eexists _, _; split; [reflexivity|]. intros _. split; reflexivity.
Qed.

(** C10: for a JID made of digits and the user suffix, stripping the
    suffix and building the JID again gives the JID back; so whatever the
    handler hands to the socket for a message from that JID, the backend's
    reply or the error reply, is addressed to that JID. *)
Theorem reply_returns_to_sender (digits : string) :
  all_chars is_digit digits = true ->
  jid_of (normalize (digits +:+ USER_SUFFIX)) = digits +:+ USER_SUFFIX /\
  (forall m env addressee txt,
     remoteJid (key m) = Some (digits +:+ USER_SUFFIX) ->
     In (addressee, txt) (outbound (snd (handleIncomingMessage m env))) ->
     addressee = digits +:+ USER_SUFFIX).
Proof.
  intros Hd. pose proof (digits_have_no_at digits Hd) as Hat.
  assert (Hround : jid_of (normalize (digits +:+ USER_SUFFIX))
                   = digits +:+ USER_SUFFIX).
  { rewrite (normalize_user_jid digits Hat). now apply jid_of_without_at. }
  split; [exact Hround|].
  intros m env addressee txt Hjid Hin.
  destruct (handle_outbound_addressed m _ env Hjid) as [Hnone|[t Hone]].
  - rewrite Hnone in Hin. destruct Hin.
  - rewrite Hone, Hround in Hin.
    destruct Hin as [Heq|[]]. congruence.
Qed.

(** C6: an event whose type is not 'notify' runs no handler and produces
    nothing; within a batch, a self-sent echo or a message without content
    is skipped: the batch runs exactly as if that message were not in it,
    and alone it produces nothing. *)
Theorem non_actionable_filtered
    (before after : list WAMessage) (m : WAMessage) (type : string) (env : Env) :
  (type <> "notify" ->
   onMessagesUpsert (before ++ m :: after) type env = (Normal tt, [])) /\
  (fromMe (key m) = Some true \/ message m = None ->
   onMessagesUpsert (before ++ m :: after) type env
     = onMessagesUpsert (before ++ after) type env /\
   onMessagesUpsert [m] type env = (Normal tt, [])).
Proof.
  split.
  - intros Htype. unfold WhatsAppService.onMessagesUpsert.
    apply String.eqb_neq in Htype. now rewrite Htype.
  - intros Hm.
    assert (Hskip : negb (truthy_bool (fromMe (key m))) && present (message m)
                    = false).
    { destruct Hm as [-> | ->]; [reflexivity|]. apply andb_false_r. }
    unfold WhatsAppService.onMessagesUpsert.
    destruct (String.eqb type "notify"); [|split; reflexivity].
    split; [now apply forEachMessage_skip|].
    cbn [WhatsAppService.forEachMessage]. now rewrite Hskip.
Qed.

End ServiceFacts.

(** *** The claims at the sample inputs *)

Import Samples.

(** C2, as the specification states it, fails: here the backend answers
    'Welcome!' and the socket rejects the send.  [sendMessage] catches the
    error and returns [{ success: false }], which the handler drops: the
    only message handed to the socket is the one that failed, and no error
    reply follows it. *)
Lemma failed_reply_gets_no_error_reply :
  socket_rejects
    [ConsoleLog (received_line "15551234567" "JOIN");
     AxiosPost (MESSAGE_URL url) (mkPayload "15551234567" "JOIN" join_message)]
    customer_jid "Welcome!" = Thrown (Error "Connection Closed") /\
  handleIncomingMessage url (backend_replies "Welcome!") socket_rejects
    join_message connected_env
  = (Normal tt,
     [ConsoleLog (received_line "15551234567" "JOIN");
      AxiosPost (MESSAGE_URL url) (mkPayload "15551234567" "JOIN" join_message);
      SockSendMessage customer_jid "Welcome!";
      ConsoleError SENDING_ERROR (Error "Connection Closed")]) /\
  ~ In ERROR_REPLY
      (map snd (outbound (snd (handleIncomingMessage url (backend_replies "Welcome!")
                                 socket_rejects join_message connected_env)))).
Proof.
  split; [reflexivity|]. split; [vm_compute; reflexivity|].
  vm_compute. intros [H|[]]. discriminate H.
Qed.

Lemma error_reply_when_forward_fails_witness :
  outbound (snd (handleIncomingMessage url backend_down socket_delivers
                   join_message connected_env))
  = [(customer_jid, ERROR_REPLY)].
Proof.
  exact (proj2 (error_reply_when_forward_fails url backend_down socket_delivers
                  join_message customer_jid
                  {| conversation := Some "JOIN"; extendedTextMessage := None |}
                  connected_env (Error "connect ECONNREFUSED 127.0.0.1:8001")
                  eq_refl eq_refl eq_refl)).
Defined.

(** C7, as the specification states it, fails in both directions: with
    the backend unreachable there is no reply field at all, yet a message
    (the error reply) is sent to the sender; and with a reply from the
    backend but the service disconnected, nothing is sent. *)
Lemma outbound_is_not_iff_reply_field :
  outbound (snd (handleIncomingMessage url backend_down socket_delivers
                   join_message connected_env))
    = [(customer_jid, ERROR_REPLY)] /\
  outbound (snd (handleIncomingMessage url (backend_replies "Welcome!")
                   socket_delivers join_message disconnected_env))
    = [].
Proof. split; vm_compute; reflexivity. Qed.

Lemma reply_sent_iff_reply_and_connected_witness :
  outbound (snd (handleIncomingMessage url (backend_replies "Welcome!")
                   socket_delivers join_message connected_env))
  = [(customer_jid, "Welcome!")].
Proof.
  exact (proj2 (reply_sent_iff_reply_and_connected url (backend_replies "Welcome!")
                  socket_delivers join_message customer_jid connected_env eq_refl)
           {| conversation := Some "JOIN"; extendedTextMessage := None |}
           {| data := Some {| reply := Some "Welcome!" |} |}
           {| reply := Some "Welcome!" |}
           eq_refl eq_refl eq_refl).
Defined.

(** C8, as the specification states it, fails: the key's [id] and the
    message timestamp are optional and are passed on as they are, so this
    actionable message is forwarded with a body that carries two fields
    only; and an actionable message without a sender address is not
    forwarded at all. *)
Lemma forwarded_payload_may_lack_fields :
  WhatsAppBatch.actionable bare_message = true /\
  posts (snd (handleIncomingMessage url (backend_replies "Welcome!")
                socket_delivers bare_message connected_env))
    = [(MESSAGE_URL url,
        {| phone_number := "15551234567"; payload_message := "JOIN";
           message_id := None; timestamp := None |})] /\
  carried_fields
    {| phone_number := "15551234567"; payload_message := "JOIN";
       message_id := None; timestamp := None |}
    = ["phone_number"; "message"] /\
  WhatsAppBatch.actionable message_without_jid = true /\
  posts (snd (handleIncomingMessage url (backend_replies "Welcome!")
                socket_delivers message_without_jid connected_env))
    = [].
Proof. repeat split; vm_compute; reflexivity. Qed.

Lemma forwarded_payload_carries_key_fields_witness :
  posts (snd (handleIncomingMessage url (backend_replies "Welcome!")
                socket_delivers join_message connected_env))
    = [(MESSAGE_URL url,
        {| phone_number := "15551234567"; payload_message := "JOIN";
           message_id := Some "3EB0A1B2C3"; timestamp := Some 1700000000%Z |})] /\
  carried_fields
    {| phone_number := "15551234567"; payload_message := "JOIN";
       message_id := Some "3EB0A1B2C3"; timestamp := Some 1700000000%Z |}
    = FOUR_FIELDS.
Proof.
  destruct (forwarded_payload_carries_key_fields url (backend_replies "Welcome!")
              socket_delivers join_message customer_jid
              {| conversation := Some "JOIN"; extendedTextMessage := None |}
              connected_env eq_refl eq_refl) as (Hposts & _ & Hfields).
  split; [exact Hposts|].
  apply Hfields. split; discriminate.
Defined.

Lemma sendMessage_never_throws_witness :
  isConnected disconnected_env = false /\
  exists evs,
    sendMessage socket_delivers (Some "15551234567") "Welcome!" disconnected_env
      = (Normal {| success := false; error := Some "WhatsApp not connected" |}, evs) /\
    outbound evs = [].
Proof.
  split; [reflexivity|].
  destruct (sendMessage_never_throws socket_delivers (Some "15551234567")
              "Welcome!" disconnected_env) as (r & evs & Hrun & Hoff).
  destruct (Hoff eq_refl) as [Hr Hout].
  exists evs. split; [now rewrite Hrun, Hr|exact Hout].
Defined.

Lemma reply_returns_to_sender_witness :
  all_chars is_digit "15551234567" = true /\
  jid_of (normalize customer_jid) = customer_jid.
Proof.
  split; [reflexivity|].
  exact (proj1 (reply_returns_to_sender url backend_down socket_delivers
                  "15551234567" eq_refl)).
Defined.

Lemma non_actionable_filtered_witness :
  onMessagesUpsert url (backend_replies "Welcome!") socket_delivers
    ([join_message] ++ echo_message :: [status_message]) "append" connected_env
    = (Normal tt, []) /\
  onMessagesUpsert url (backend_replies "Welcome!") socket_delivers
    ([join_message] ++ echo_message :: [status_message]) "notify" connected_env
    = onMessagesUpsert url (backend_replies "Welcome!") socket_delivers
        ([join_message] ++ [status_message]) "notify" connected_env.
Proof.
  split.
  - apply (proj1 (non_actionable_filtered url (backend_replies "Welcome!")
                    socket_delivers [join_message] [status_message] echo_message
                    "append" connected_env)).
    discriminate.
  - apply (proj2 (non_actionable_filtered url (backend_replies "Welcome!")
                    socket_delivers [join_message] [status_message] echo_message
                    "notify" connected_env)).
    left. reflexivity.
Defined.
End WhatsAppServiceFacts.

(* ===================================================================== *)
(** ** Facts about the loyalty engine                                     *)
(* ===================================================================== *)

Module LoyaltyEngineFacts.
Import LoyaltyEngine LoyaltySamples.

Local Open Scope Z_scope.

Lemma getById_lookup (id : string) (m : gmap string Customer) (c : Customer) :
  getById id m = Some c -> exists k, m !! k = Some c.
Proof.
  unfold getById. intros H.
  destruct (List.find _ (map_to_list m)) as [[k c']|] eqn:Hfind; [|discriminate].
  injection H as <-.
  apply List.find_some in Hfind as [Hin _].
  exists k. apply elem_of_map_to_list. now apply list_elem_of_In.
Qed.

Lemma upsert_ok (c : Customer) (m : gmap string Customer) :
  map_Forall (fun _ c => customer_ok c) m -> customer_ok c ->
  map_Forall (fun _ c => customer_ok c) (upsert c m).
Proof. intros Hm Hc. unfold upsert. now apply map_Forall_insert_2. Qed.

Section EngineFacts.

Variable new_customer_id : gmap string Customer -> string -> string.
Variable initial_name : string -> string.

Lemma stamp_ok (id : string) (now : Z) (m : gmap string Customer) :
  map_Forall (fun _ c => customer_ok c) m ->
  map_Forall (fun _ c => customer_ok c) (fst (stamp id now m)).
Proof.
  intros Hm. unfold stamp.
  destruct (getById id m) as [c|] eqn:Hget; [|exact Hm].
  destruct (negb (cooldown_elapsed now c)); [exact Hm|].
  destruct (Z.ltb_spec (stamps c) MAX_STAMPS) as [Hlt|]; [|exact Hm].
  cbn [negb fst]. apply upsert_ok; [exact Hm|].
  apply getById_lookup in Hget as [k Hk].
  destruct (Hm k c Hk) as [Hs Hr].
  unfold customer_ok, add_stamp, MAX_STAMPS in *. cbn. lia.
Qed.

Lemma redeem_ok (id : string) (m : gmap string Customer) :
  map_Forall (fun _ c => customer_ok c) m ->
  map_Forall (fun _ c => customer_ok c) (fst (redeem id m)).
Proof.
  intros Hm. unfold redeem.
  destruct (getById id m) as [c|] eqn:Hget; [|exact Hm].
  destruct (Z.leb_spec 1 (rewards c)) as [Hle|]; [|exact Hm].
  cbn [fst]. apply upsert_ok; [exact Hm|].
  unfold customer_ok, redeem_reward. cbn. lia.
Qed.

Lemma step_ok (s : State) (who : string) (now : Z) (cmd : Command) :
  store_ok s -> store_ok (fst (step new_customer_id initial_name s who now cmd)).
Proof.
  unfold store_ok. intros Hs.
  destruct cmd as [| | |n|id|id]; cbn [step].
  - destruct (customers s !! who) as [c|]; [exact Hs|].
    cbn [fst with_customers customers]. apply upsert_ok; [exact Hs|].
    unfold customer_ok, new_customer. cbn. lia.
  - destruct (customers s !! who); exact Hs.
  - destruct (customers s !! who) as [c|] eqn:Hc; [|exact Hs].
    destruct (Z.eqb_spec (stamps c) MAX_STAMPS) as [Hmax|]; [|exact Hs].
    cbn [fst with_customers customers]. apply upsert_ok; [exact Hs|].
    destruct (Hs who c Hc) as [Hst Hr].
    unfold customer_ok, claim_reward. cbn. lia.
  - destruct (customers s !! who) as [c|] eqn:Hc; [|exact Hs].
    cbn [fst with_customers customers]. apply upsert_ok; [exact Hs|]. exact (Hs who c Hc).
  - destruct (bool_decide (who ∈ staff s)).
    + pose proof (stamp_ok id now (customers s) Hs) as H.
      destruct (stamp id now (customers s)) as [m o]. exact H.
    + exact Hs.
  - destruct (bool_decide (who ∈ staff s)).
    + pose proof (redeem_ok id (customers s) Hs) as H.
      destruct (redeem id (customers s)) as [m o]. exact H.
    + exact Hs.
Qed.

Lemma run_ok (ops : list Inbound) (s : State) :
  store_ok s -> store_ok (run new_customer_id initial_name s ops).
Proof.
  revert s. induction ops as [|op ops IH]; intros s Hs; [exact Hs|].
  cbn [run]. apply IH. now apply step_ok.
Qed.

(** C3: from a store in which every customer has between 0 and 10 stamps
    and no negative reward count, any sequence of JOIN, STATUS, REWARD,
    UPDATE_NAME, STAMP and REDEEM, from any senders at any times, leads to
    a store in which every customer record still has [0 <= stamps <= 10]
    and [rewards >= 0]. *)
Theorem stamps_and_rewards_stay_in_range
    (s : State) (ops : list Inbound) (phone : string) (c : Customer) :
  store_ok s ->
  customers (run new_customer_id initial_name s ops) !! phone = Some c ->
  0 <= stamps c <= 10 /\ rewards c >= 0.
Proof.
  intros Hs Hc.
  destruct (run_ok ops s Hs phone c Hc) as [Hst Hr]. lia.
Qed.

End EngineFacts.

(** The sample run: the second STAMP falls in the cooldown, the REWARD is
    claimed at 10 stamps and the REDEEM resets the stamps. *)
Example sample_run_regular :
  customers (run short_code no_name sample_state sample_ops) !! "15551234567"
  = Some regular_after.
Proof. vm_compute. reflexivity. Qed.

Lemma stamps_and_rewards_stay_in_range_witness :
  store_ok sample_state /\
  (0 <= stamps regular_after <= 10 /\ rewards regular_after >= 0).
Proof.
  assert (Hok : store_ok sample_state).
  { unfold store_ok, sample_state. cbn [customers].
    apply map_Forall_singleton. unfold customer_ok, regular. cbn. lia. }
  split; [exact Hok|].
  apply (stamps_and_rewards_stay_in_range short_code no_name sample_state
           sample_ops "15551234567" regular_after Hok).
  vm_compute. reflexivity.
Defined.

End LoyaltyEngineFacts.

(* ===================================================================== *)
(** ** More about sender addresses                                        *)
(* ===================================================================== *)

Module AddressFacts.
Import JsString JsStringFacts WhatsAppService.

Local Arguments String.append !_ _ / : simpl nomatch.

Lemma includes_unfold (pat s : string) :
  includes pat s =
  match strip_prefix pat s with
  | Some _ => true
  | None => match s with
            | EmptyString => false
            | String _ s' => includes pat s'
            end
  end.
Proof. destruct s; reflexivity. Qed.

Lemma includes_occurrence (pat pre post : string) :
  includes pat (pre +:+ pat +:+ post) = true.
Proof.
  induction pre as [|c pre IH].
  - rewrite includes_unfold.
    change ("" +:+ pat +:+ post) with (pat +:+ post).
    now rewrite strip_prefix_app.
  - rewrite includes_unfold.
    destruct (strip_prefix pat _); [reflexivity|].
    change (String c pre +:+ pat +:+ post) with (String c (pre +:+ pat +:+ post)).
    exact IH.
Qed.

Lemma replace_drops_first_char (p : ascii) (pat s : string) :
  includes (String p pat) s = true ->
  (count_char p (replace (String p pat) "" s) < count_char p s)%nat.
Proof.
  induction s as [|c s IH]; intros Hin.
  - discriminate Hin.
  - rewrite includes_unfold in Hin. cbn [replace].
    destruct (strip_prefix (String p pat) (String c s)) as [rest|] eqn:E.
    + apply strip_prefix_Some in E. rewrite E.
      change ("" +:+ rest) with rest.
      rewrite count_char_app. cbn [count_char]. rewrite Ascii.eqb_refl. lia.
    + specialize (IH Hin). cbn [count_char]. lia.
Qed.

(** X1: whatever number or JID [sendMessage] is given, the address it
    builds contains an ['@'], and building an address from an address
    changes nothing: a caller may pass a bare number or a full JID. *)
Theorem jid_of_is_a_jid (phoneNumber : string) :
  includes "@" (jid_of phoneNumber) = true /\
  jid_of (jid_of phoneNumber) = jid_of phoneNumber.
Proof.
  assert (H : includes "@" (jid_of phoneNumber) = true).
  { unfold jid_of.
    destruct (includes "@" phoneNumber) eqn:E; [exact E|].
    unfold USER_SUFFIX.
    exact (includes_occurrence "@" phoneNumber "s.whatsapp.net"). }
  split; [exact H|].
  unfold jid_of at 1. now rewrite H.
Qed.

(** X2: an address with at most one ['@'] no longer contains
    ['@s.whatsapp.net'] once normalized. *)
Theorem normalized_has_no_user_suffix (x : string) :
  (count_char "@" x <= 1)%nat ->
  includes USER_SUFFIX (normalize x) = false.
Proof.
  intros Hx.
  destruct (includes USER_SUFFIX x) eqn:E.
  - apply includes_absent_char.
    pose proof (replace_drops_first_char "@" "s.whatsapp.net" x E) as Hlt.
    unfold normalize, USER_SUFFIX. lia.
  - unfold normalize. now rewrite replace_not_included.
Qed.

Lemma normalized_has_no_user_suffix_witness :
  (count_char "@" Samples.customer_jid <= 1)%nat /\
  includes USER_SUFFIX (normalize Samples.customer_jid) = false.
Proof.
  split.
  - vm_compute. lia.
  - apply (normalized_has_no_user_suffix Samples.customer_jid). vm_compute. lia.
Defined.

End AddressFacts.

(* ===================================================================== *)
(** ** More about the handler, [sendMessage] and the listener             *)
(* ===================================================================== *)

Module WhatsAppServiceMore.
Import JsString JsStringFacts WhatsAppService WhatsAppServiceFacts WhatsAppBatch.

Section More.

Variable FASTAPI_URL : string.
Variable axios_post : list Event -> string -> Payload -> Completion Response.
Variable sock_sendMessage : list Event -> string -> string -> Completion unit.

Local Abbreviation sendMessage := (sendMessage sock_sendMessage).
Local Abbreviation handleIncomingMessage :=
  (handleIncomingMessage FASTAPI_URL axios_post sock_sendMessage).
Local Abbreviation forEachMessage :=
  (forEachMessage FASTAPI_URL axios_post sock_sendMessage).
Local Abbreviation onMessagesUpsert :=
  (onMessagesUpsert FASTAPI_URL axios_post sock_sendMessage).

(** For a message with a sender the handler either hands nothing to
    the socket, or ends with one call of [sendMessage] for the normalized
    sender, whose text is the error reply or a reply of the backend. *)
Lemma handle_cases (m : WAMessage) (jid : string) (env : Env) :
  remoteJid (key m) = Some jid ->
  outbound (snd (handleIncomingMessage m env)) = [] \/
  exists pre env' t,
    snd (handleIncomingMessage m env)
      = pre ++ snd (sendMessage (Some (normalize jid)) t env') /\
    outbound pre = [] /\ isConnected env' = isConnected env /\
    (t = ERROR_REPLY \/
     exists h u b resp d,
       axios_post h u b = Normal resp /\ data resp = Some d /\ reply d = Some t).
Proof.
  intros Hjid.
  destruct (message m) as [c|] eqn:Hc.
  - destruct (forward_failure
                (axios_post
                   (history env ++
                    [ConsoleLog (received_line (normalize jid) (messageText c))])
                   (MESSAGE_URL FASTAPI_URL)
                   (mkPayload (normalize jid) (messageText c) m))) as [e|] eqn:Hf.
    + right. rewrite (handle_forward_failed _ _ _ m jid c env e) by assumption.
      cbn [snd]. eexists _, _, ERROR_REPLY.
      split; [reflexivity|]. split; [reflexivity|]. split; [reflexivity|now left].
    + unfold forward_failure in Hf.
      destruct (axios_post _ _ _) as [resp|] eqn:Hpost; [|discriminate].
      destruct (data resp) as [d|] eqn:Hd; [|discriminate].
      rewrite (handle_forward_answered _ _ _ m jid c env resp d) by assumption.
      cbn [snd].
      destruct (reply d) as [t|] eqn:Hr; cbn [truthy]; [|now left].
      destruct (negb (String.eqb t "")); [|now left].
      right. eexists _, _, t.
      split; [reflexivity|]. split; [reflexivity|]. split; [reflexivity|].
      right. eauto 10.
  - right. rewrite (handle_without_content _ _ _ m jid env) by assumption.
    cbn [snd].
    exists [ConsoleError HANDLING_ERROR (cannot_read "conversation")].
    eexists _, ERROR_REPLY.
    split; [reflexivity|]. split; [reflexivity|]. split; [reflexivity|now left].
Qed.

Lemma handle_outbound_short (m : WAMessage) (env : Env) :
  (length (outbound (snd (handleIncomingMessage m env))) <= 1)%nat.
Proof.
  destruct (remoteJid (key m)) as [jid|] eqn:Hjid.
  - destruct (handle_outbound_addressed FASTAPI_URL axios_post sock_sendMessage
                m jid env Hjid) as [->|[t ->]]; cbn; lia.
  - rewrite handle_without_jid by assumption. cbn. lia.
Qed.

Lemma handle_outbound_disconnected (m : WAMessage) (env : Env) :
  isConnected env = false ->
  outbound (snd (handleIncomingMessage m env)) = [].
Proof.
  intros Hoff.
  destruct (remoteJid (key m)) as [jid|] eqn:Hjid.
  - destruct (handle_cases m jid env Hjid)
      as [H|(pre & env' & t & -> & Hpre & Hc & _)]; [exact H|].
    now rewrite outbound_app, sendMessage_outbound, Hc, Hoff, Hpre.
  - now rewrite handle_without_jid.
Qed.

(** A text handed to the socket that is not the error reply is the
    [reply] of the response to the request the handler has just made,
    and goes to the JID of the number in that request. *)
Lemma handle_reply_origin (m : WAMessage) (env : Env) (addressee txt : string) :
  In (addressee, txt) (outbound (snd (handleIncomingMessage m env))) ->
  txt = ERROR_REPLY \/
  exists pre body rest resp d,
    snd (handleIncomingMessage m env)
      = pre ++ AxiosPost (MESSAGE_URL FASTAPI_URL) body
            :: SockSendMessage addressee txt :: rest /\
    axios_post (history env ++ pre) (MESSAGE_URL FASTAPI_URL) body = Normal resp /\
    data resp = Some d /\ reply d = Some txt /\
    addressee = jid_of (phone_number body).
Proof.
  destruct (remoteJid (key m)) as [jid|] eqn:Hjid;
    [|rewrite handle_without_jid by assumption; intros []].
  destruct (message m) as [c|] eqn:Hc.
  - destruct (forward_failure
                (axios_post
                   (history env ++
                    [ConsoleLog (received_line (normalize jid) (messageText c))])
                   (MESSAGE_URL FASTAPI_URL)
                   (mkPayload (normalize jid) (messageText c) m))) as [e|] eqn:Hf.
    + rewrite (handle_forward_failed _ _ _ m jid c env e) by assumption.
      cbn [snd]. rewrite outbound_app, sendMessage_outbound. cbn [outbound app].
      destruct (isConnected _); [|intros []].
      intros [H|[]]. left. congruence.
    + unfold forward_failure in Hf.
      destruct (axios_post _ _ _) as [resp|] eqn:Hpost; [|discriminate].
      destruct (data resp) as [d|] eqn:Hd; [|discriminate].
      rewrite (handle_forward_answered _ _ _ m jid c env resp d) by assumption.
      cbn [snd].
      destruct (reply d) as [t|] eqn:Hr; cbn [truthy]; [|intros []].
      destruct (negb (String.eqb t "")); [|intros []].
      rewrite sendMessage_unfold. cbn [default].
      destruct (isConnected _); [|intros []].
      destruct (sock_sendMessage _ _ _); cbn [snd app outbound];
        (intros [H|[]]; injection H as <- <-; right;
         exists [ConsoleLog (received_line (normalize jid) (messageText c))],
                (mkPayload (normalize jid) (messageText c) m);
         eexists _, resp, d;
         split; [reflexivity|]; split; [exact Hpost|];
         split; [exact Hd|]; split; [exact Hr|reflexivity]).
  - rewrite (handle_without_content _ _ _ m jid env) by assumption.
    cbn [snd outbound]. rewrite sendMessage_outbound.
    destruct (isConnected _); [|intros []].
    intros [H|[]]. left. congruence.
Qed.

(** One turn of the loop. *)
Lemma forEachMessage_cons (m : WAMessage) (rest : list WAMessage) (env : Env) :
  forEachMessage (m :: rest) env =
  match (if actionable m then handleIncomingMessage m env else (Normal tt, [])) with
  | (Normal _, evs) =>
      (fst (forEachMessage rest (advance env evs)),
       evs ++ snd (forEachMessage rest (advance env evs)))
  | (Thrown e, evs) => (Thrown e, evs)
  end.
Proof.
  cbn [WhatsAppService.forEachMessage]. unfold bind at 1. fold (actionable m).
  destruct (actionable m).
  - destruct (handleIncomingMessage m env) as [[[]|e] evs]; [|reflexivity].
    now destruct (forEachMessage rest (advance env evs)).
  - cbn [ret]. now destruct (forEachMessage rest (advance env [])).
Qed.

Lemma forEachMessage_outbound_disconnected (msgs : list WAMessage) (env : Env) :
  isConnected env = false -> outbound (snd (forEachMessage msgs env)) = [].
Proof.
  revert env. induction msgs as [|m rest IH]; intros env Hoff; [reflexivity|].
  rewrite forEachMessage_cons.
  pose proof (handle_outbound_disconnected m env Hoff) as Hm.
  destruct (actionable m).
  - destruct (handleIncomingMessage m env) as [[[]|e] evs]; cbn [snd] in *;
      [|exact Hm].
    rewrite outbound_app, Hm. now apply IH.
  - cbn [snd app]. now apply IH.
Qed.

Lemma forEachMessage_counts (msgs : list WAMessage) (env : Env) :
  (length (outbound (snd (forEachMessage msgs env)))
     <= length (List.filter actionable msgs))%nat /\
  (length (posts (snd (forEachMessage msgs env)))
     <= length (List.filter actionable msgs))%nat.
Proof.
  revert env. induction msgs as [|m rest IH]; intros env; [cbn; lia|].
  rewrite forEachMessage_cons. cbn [List.filter].
  pose proof (handle_outbound_short m env) as Hout.
  assert (Hpost : (length (posts (snd (handleIncomingMessage m env))) <= 1)%nat).
  { rewrite handle_posts.
    destruct (remoteJid (key m)); [destruct (message m)|]; cbn; lia. }
  destruct (actionable m).
  - destruct (handleIncomingMessage m env) as [[[]|e] evs]; cbn [snd length] in *;
      [|lia].
    rewrite outbound_app, posts_app, !length_app.
    destruct (IH (advance env evs)). lia.
  - cbn [snd app]. apply IH.
Qed.

Lemma forEachMessage_reply_origin (msgs : list WAMessage) (env : Env)
    (addressee txt : string) :
  In (addressee, txt) (outbound (snd (forEachMessage msgs env))) ->
  txt = ERROR_REPLY \/
  exists pre body rest resp d,
    snd (forEachMessage msgs env)
      = pre ++ AxiosPost (MESSAGE_URL FASTAPI_URL) body
            :: SockSendMessage addressee txt :: rest /\
    axios_post (history env ++ pre) (MESSAGE_URL FASTAPI_URL) body = Normal resp /\
    data resp = Some d /\ reply d = Some txt /\
    addressee = jid_of (phone_number body).
Proof.
  revert env. induction msgs as [|m rest IH]; intros env; [intros []|].
  rewrite forEachMessage_cons.
  pose proof (handle_reply_origin m env addressee txt) as Hm.
  destruct (actionable m).
  - destruct (handleIncomingMessage m env) as [[[]|e] evs]; cbn [snd] in *;
      [|exact Hm].
    rewrite outbound_app. intros [H|H]%in_app_or.
    + destruct (Hm H) as [Herr|(pre & body & rest0 & resp & d & -> & Hrest)];
        [now left|right].
      exists pre, body, (rest0 ++ snd (forEachMessage rest
                                         (advance env (pre ++ AxiosPost (MESSAGE_URL FASTAPI_URL) body
                                                         :: SockSendMessage addressee txt :: rest0)))),
             resp, d.
      split; [|exact Hrest].
      now rewrite <- app_assoc.
    + destruct (IH (advance env evs) H)
        as [Herr|(pre & body & rest0 & resp & d & Hrun & Hpost & Hrest)];
        [now left|right].
      exists (evs ++ pre), body, rest0, resp, d.
      split; [rewrite Hrun; now rewrite <- app_assoc|].
      split; [|exact Hrest].
      cbn [advance history] in Hpost. now rewrite app_assoc.
  - cbn [snd app]. rewrite advance_nil. apply IH.
Qed.

(** *** Properties of the handler, [sendMessage] and the listener *)

(** X3: an address that contains an ['@'] but not ['@s.whatsapp.net'] (a
    group, a broadcast list) passes through unchanged: the backend
    receives the whole JID as [phone_number], and whatever the handler
    hands to the socket is addressed to that same JID. *)
Theorem other_jid_passes_through (jid : string) (m : WAMessage) (env : Env) :
  includes "@" jid = true -> includes USER_SUFFIX jid = false ->
  remoteJid (key m) = Some jid ->
  normalize jid = jid /\
  jid_of (normalize jid) = jid /\
  posts (snd (handleIncomingMessage m env)) =
    match message m with
    | Some c => [(MESSAGE_URL FASTAPI_URL, mkPayload jid (messageText c) m)]
    | None => []
    end /\
  (forall addressee txt,
     In (addressee, txt) (outbound (snd (handleIncomingMessage m env))) ->
     addressee = jid).
Proof.
  intros Hat Hsuffix Hjid.
  assert (Hn : normalize jid = jid) by now apply normalize_without_suffix.
  assert (Hj : jid_of (normalize jid) = jid).
  { rewrite Hn. unfold jid_of. now rewrite Hat. }
  split; [exact Hn|]. split; [exact Hj|]. split.
  - rewrite handle_posts, Hjid, Hn. reflexivity.
  - intros addressee txt Hin.
    destruct (handle_outbound_addressed FASTAPI_URL axios_post sock_sendMessage
                m jid env Hjid) as [Hnone|[t Hone]].
    + rewrite Hnone in Hin. destruct Hin.
    + rewrite Hone, Hj in Hin. destruct Hin as [H|[]]. congruence.
Qed.

(** X4: when every actionable message of a 'notify' batch carries a
    sender address, the listener completes normally and the backend
    receives exactly one request per actionable message, in the order of
    the batch. *)
Theorem batch_forwards_each_message_once (msgs : list WAMessage) (env : Env) :
  (forall m, In m msgs -> actionable m = true -> has_sender m = true) ->
  fst (onMessagesUpsert msgs "notify" env) = Normal tt /\
  posts (snd (onMessagesUpsert msgs "notify" env)) =
    List.flat_map (forwarded FASTAPI_URL) (List.filter actionable msgs).
Proof.
  unfold WhatsAppService.onMessagesUpsert.
  change (String.eqb "notify" "notify") with true. cbv iota.
  revert env. induction msgs as [|m rest IH]; intros env Hall.
  - split; reflexivity.
  - rewrite forEachMessage_cons. cbn [List.filter].
    assert (Hrest : forall m', In m' rest -> actionable m' = true ->
                               has_sender m' = true)
      by (intros m' Hin; apply Hall; now right).
    destruct (actionable m) eqn:Hact.
    + pose proof (Hall m (or_introl eq_refl) Hact) as Hs.
      unfold has_sender in Hs.
      destruct (remoteJid (key m)) as [jid|] eqn:Hjid; [|discriminate].
      pose proof (handle_with_jid_normal FASTAPI_URL axios_post sock_sendMessage
                    m jid env Hjid) as Hnormal.
      pose proof (handle_posts FASTAPI_URL axios_post sock_sendMessage m env)
        as Hposts.
      destruct (handleIncomingMessage m env) as [c evs]; cbn [fst snd] in *.
      subst c. cbn [fst snd List.flat_map].
      destruct (IH (advance env evs) Hrest) as [IH1 IH2].
      split; [exact IH1|].
      rewrite posts_app, IH2, Hposts.
      unfold forwarded. now rewrite Hjid.
    + cbn [fst snd app]. now apply IH.
Qed.

(** X5: while the service is not connected (no socket, or a status other
    than 'connected'), a batch hands nothing to the socket, whatever the
    messages and whatever the backend answers. *)
Theorem no_reply_while_disconnected
    (msgs : list WAMessage) (type : string) (env : Env) :
  isConnected env = false ->
  outbound (snd (onMessagesUpsert msgs type env)) = [].
Proof.
  intros Hoff. unfold WhatsAppService.onMessagesUpsert.
  destruct (String.eqb type "notify"); [|reflexivity].
  now apply forEachMessage_outbound_disconnected.
Qed.

(** X6: a batch never produces more requests to the backend, nor more
    messages to the socket, than it has actionable messages; this holds
    also when a handler throws in the middle of the batch. *)
Theorem at_most_one_reply_per_message
    (msgs : list WAMessage) (type : string) (env : Env) :
  (length (outbound (snd (onMessagesUpsert msgs type env)))
     <= length (List.filter actionable msgs))%nat /\
  (length (posts (snd (onMessagesUpsert msgs type env)))
     <= length (List.filter actionable msgs))%nat.
Proof.
  unfold WhatsAppService.onMessagesUpsert.
  destruct (String.eqb type "notify"); [apply forEachMessage_counts|].
  cbn. lia.
Qed.

(** X7: the service has no text of its own but the error reply: every
    text a batch hands to the socket is either that fixed error reply, or
    the [reply] field of the response the backend gave to a request made
    in this very run; the send follows that request at once in the events
    of the run, and it is addressed to the JID of the [phone_number] of
    that request. *)
Theorem replies_come_from_the_backend
    (msgs : list WAMessage) (type : string) (env : Env) (addressee txt : string) :
  In (addressee, txt) (outbound (snd (onMessagesUpsert msgs type env))) ->
  txt = ERROR_REPLY \/
  exists pre body rest resp d,
    snd (onMessagesUpsert msgs type env)
      = pre ++ AxiosPost (MESSAGE_URL FASTAPI_URL) body
            :: SockSendMessage addressee txt :: rest /\
    axios_post (history env ++ pre) (MESSAGE_URL FASTAPI_URL) body = Normal resp /\
    data resp = Some d /\ reply d = Some txt /\
    addressee = jid_of (phone_number body).
Proof.
  unfold WhatsAppService.onMessagesUpsert.
  destruct (String.eqb type "notify"); [apply forEachMessage_reply_origin|].
  intros [].
Qed.

(** X8: [sendMessage] reports [success: true] exactly when the service is
    connected, a number was given and the socket accepted the message;
    then exactly that one message, addressed to the JID of the number,
    was handed to the socket and no error is reported.  In every other
    case the result carries an error text. *)
Theorem sendMessage_success_means_sent
    (phoneNumber : option string) (txt : string) (env : Env)
    (res : SendResult) (evs : list Event) :
  sendMessage phoneNumber txt env = (Normal res, evs) ->
  (success res = true <->
     isConnected env = true /\
     exists number, phoneNumber = Some number /\
       sock_sendMessage (history env) (jid_of number) txt = Normal tt) /\
  (success res = true ->
     error res = None /\
     exists number, phoneNumber = Some number /\
       outbound evs = [(jid_of number, txt)]) /\
  (success res = false -> error res <> None).
Proof.
  rewrite sendMessage_unfold.
  destruct (isConnected env).
  - destruct phoneNumber as [number|].
    + destruct (sock_sendMessage (history env) (jid_of number) txt) as [[]|e] eqn:Hs;
        intros [= <- <-]; cbn [success error].
      * split; [|split]; [split; eauto|eauto|discriminate].
      * split; [|split]; [|discriminate|discriminate].
        split; [discriminate|].
        intros (_ & n & [= <-] & Hn). congruence.
    + intros [= <- <-]. cbn [success error].
      split; [|split]; [|discriminate|discriminate].
      split; [discriminate|]. intros (_ & n & Hn & _). discriminate.
  - intros [= <- <-]. cbn [success error].
    split; [|split]; [|discriminate|discriminate].
    split; [discriminate|]. intros (Hc & _). discriminate.
Qed.

End More.

(** *** The properties at the sample inputs *)

Import Samples.

Lemma other_jid_passes_through_witness :
  jid_of (normalize group_jid) = group_jid /\
  posts (snd (handleIncomingMessage url (backend_replies "Stamps: 3/10")
                socket_delivers group_message connected_env))
  = [(MESSAGE_URL url, mkPayload group_jid "STATUS" group_message)].
Proof.
  destruct (other_jid_passes_through url (backend_replies "Stamps: 3/10")
              socket_delivers group_jid group_message connected_env
              eq_refl eq_refl eq_refl) as (_ & Hj & Hp & _).
  split; [exact Hj|exact Hp].
Defined.

Lemma batch_forwards_each_message_once_witness :
  posts (snd (onMessagesUpsert url (backend_replies "Welcome!") socket_delivers
                [join_message; echo_message; status_message] "notify"
                connected_env))
  = [(MESSAGE_URL url, mkPayload "15551234567" "JOIN" join_message);
     (MESSAGE_URL url, mkPayload "15551234567" "STATUS" status_message)].
Proof.
  apply (batch_forwards_each_message_once url (backend_replies "Welcome!")
           socket_delivers [join_message; echo_message; status_message]
           connected_env).
  intros m [<-|[<-|[<-|[]]]] _; reflexivity.
Defined.

Lemma no_reply_while_disconnected_witness :
  isConnected disconnected_env = false /\
  outbound (snd (onMessagesUpsert url (backend_replies "Welcome!") socket_delivers
                   [join_message; status_message] "notify" disconnected_env))
  = [].
Proof.
  split; [reflexivity|].
  apply (no_reply_while_disconnected url (backend_replies "Welcome!")
           socket_delivers [join_message; status_message] "notify"
           disconnected_env).
  reflexivity.
Defined.

Lemma replies_come_from_the_backend_witness :
  "Welcome!" = ERROR_REPLY \/
  exists pre body rest resp d,
    snd (onMessagesUpsert url (backend_replies "Welcome!") socket_delivers
           [join_message] "notify" connected_env)
      = pre ++ AxiosPost (MESSAGE_URL url) body
            :: SockSendMessage customer_jid "Welcome!" :: rest /\
    backend_replies "Welcome!" (history connected_env ++ pre) (MESSAGE_URL url) body
      = Normal resp /\
    data resp = Some d /\ reply d = Some "Welcome!" /\
    customer_jid = jid_of (phone_number body).
Proof.
  apply (replies_come_from_the_backend url (backend_replies "Welcome!")
           socket_delivers [join_message] "notify" connected_env
           customer_jid "Welcome!").
  vm_compute. left. reflexivity.
Defined.

Lemma sendMessage_success_means_sent_witness :
  exists number,
    Some "15551234567" = Some number /\
    outbound [SockSendMessage customer_jid "Welcome!";
              ConsoleLog (sent_line "15551234567" "Welcome!")]
    = [(jid_of number, "Welcome!")].
Proof.
  apply (sendMessage_success_means_sent socket_delivers (Some "15551234567")
           "Welcome!" connected_env {| success := true; error := None |}
           [SockSendMessage customer_jid "Welcome!";
            ConsoleLog (sent_line "15551234567" "Welcome!")]);
    reflexivity.
Defined.

End WhatsAppServiceMore.

(* ===================================================================== *)
(** ** Facts about the connection state and the REST endpoints            *)
(* ===================================================================== *)

Module WhatsAppConnectionFacts.
Import WhatsAppConnection.

Section ConnectionFacts.

Variable loggedOut : Z.

Local Abbreviation onConnectionUpdate := (onConnectionUpdate loggedOut).
Local Abbreviation update_all := (update_all loggedOut).
Local Abbreviation occur_all := (occur_all loggedOut).

(** The three variables after one update. *)
Lemma update_sock (u : ConnectionUpdate) (g : Globals) :
  sock (fst (onConnectionUpdate u g)) = sock g.
Proof.
  unfold WhatsAppConnection.onConnectionUpdate.
  destruct (WhatsAppService.truthy (qr u));
    destruct (strict_eq (connection u) "close");
    destruct (strict_eq (connection u) "open"); reflexivity.
Qed.

Lemma update_status (u : ConnectionUpdate) (g : Globals) :
  connectionStatus (fst (onConnectionUpdate u g)) =
  if strict_eq (connection u) "close" then "disconnected"
  else if strict_eq (connection u) "open" then "connected"
  else connectionStatus g.
Proof.
  unfold WhatsAppConnection.onConnectionUpdate.
  destruct (WhatsAppService.truthy (qr u));
    destruct (strict_eq (connection u) "close");
    destruct (strict_eq (connection u) "open"); reflexivity.
Qed.

Lemma update_qrCode (u : ConnectionUpdate) (g : Globals) :
  qrCode (fst (onConnectionUpdate u g)) =
  if strict_eq (connection u) "close"
  then (if WhatsAppService.truthy (qr u) then qr u else qrCode g)
  else if strict_eq (connection u) "open" then None
  else (if WhatsAppService.truthy (qr u) then qr u else qrCode g).
Proof.
  unfold WhatsAppConnection.onConnectionUpdate.
  destruct (WhatsAppService.truthy (qr u));
    destruct (strict_eq (connection u) "close");
    destruct (strict_eq (connection u) "open"); reflexivity.
Qed.

Lemma update_timers (u : ConnectionUpdate) (g : Globals) (delay : Z) :
  timers delay (snd (onConnectionUpdate u g)) =
  if strict_eq (connection u) "close" && shouldReconnect loggedOut u
     && Z.eqb 5000 delay
  then 1 else 0.
Proof.
  unfold WhatsAppConnection.onConnectionUpdate.
  destruct (WhatsAppService.truthy (qr u));
    destruct (strict_eq (connection u) "close");
    destruct (strict_eq (connection u) "open");
    destruct (shouldReconnect loggedOut u);
    cbn -[Z.eqb]; destruct (Z.eqb 5000 delay); reflexivity.
Qed.

Lemma close_is_not_open (u : ConnectionUpdate) :
  strict_eq (connection u) "close" = true ->
  strict_eq (connection u) "open" = false.
Proof.
  unfold strict_eq. destruct (connection u) as [c|]; [|discriminate].
  intros ->%String.eqb_eq. reflexivity.
Qed.

Lemma update_all_cons (g : Globals) (u : ConnectionUpdate) (us : list ConnectionUpdate) :
  update_all g (u :: us) =
  (fst (update_all (fst (onConnectionUpdate u g)) us),
   snd (onConnectionUpdate u g) ++ snd (update_all (fst (onConnectionUpdate u g)) us)).
Proof.
  cbn [WhatsAppConnection.update_all].
  destruct (onConnectionUpdate u g) as [g1 e1]. cbn [fst snd].
  now destruct (update_all g1 us).
Qed.

Lemma update_all_app (g : Globals) (us vs : list ConnectionUpdate) :
  fst (update_all g (us ++ vs)) = fst (update_all (fst (update_all g us)) vs).
Proof.
  revert g. induction us as [|u us IH]; intros g; [reflexivity|].
  cbn [app]. rewrite !update_all_cons. cbn [fst]. apply IH.
Qed.

Lemma update_all_sock (g : Globals) (us : list ConnectionUpdate) :
  sock (fst (update_all g us)) = sock g.
Proof.
  revert g. induction us as [|u us IH]; intros g; [reflexivity|].
  rewrite update_all_cons. cbn [fst]. now rewrite IH, update_sock.
Qed.

(** Updates that are not of one kind keep the status of the other. *)
Lemma status_stays_disconnected (g : Globals) (us : list ConnectionUpdate) :
  connectionStatus g = "disconnected" ->
  (forall v, In v us -> strict_eq (connection v) "open" = false) ->
  connectionStatus (fst (update_all g us)) = "disconnected".
Proof.
  revert g. induction us as [|u us IH]; intros g Hg Hus; [exact Hg|].
  rewrite update_all_cons. cbn [fst]. apply IH.
  - rewrite update_status, (Hus u (or_introl eq_refl)).
    now destruct (strict_eq (connection u) "close").
  - intros v Hv. apply Hus. now right.
Qed.

Lemma status_stays_connected (g : Globals) (us : list ConnectionUpdate) :
  connectionStatus g = "connected" ->
  (forall v, In v us -> strict_eq (connection v) "close" = false) ->
  connectionStatus (fst (update_all g us)) = "connected".
Proof.
  revert g. induction us as [|u us IH]; intros g Hg Hus; [exact Hg|].
  rewrite update_all_cons. cbn [fst]. apply IH.
  - rewrite update_status, (Hus u (or_introl eq_refl)).
    now destruct (strict_eq (connection u) "open").
  - intros v Hv. apply Hus. now right.
Qed.

Lemma qrCode_stays (g : Globals) (us : list ConnectionUpdate) :
  (forall v, In v us -> WhatsAppService.truthy (qr v) = false) ->
  q_or_none (qrCode g) (qrCode (fst (update_all g us))).
Proof.
  revert g. induction us as [|u us IH]; intros g Hus; [now left|].
  rewrite update_all_cons. cbn [fst].
  assert (Hrest : forall v, In v us -> WhatsAppService.truthy (qr v) = false)
    by (intros v Hv; apply Hus; now right).
  specialize (IH (fst (onConnectionUpdate u g)) Hrest).
  rewrite update_qrCode, (Hus u (or_introl eq_refl)) in IH.
  destruct (strict_eq (connection u) "close"); [exact IH|].
  destruct (strict_eq (connection u) "open"); [|exact IH].
  right. destruct IH as [IH|IH]; now rewrite IH.
Qed.

Lemma timers_app (delay : Z) (a b : list Effect) :
  timers delay (a ++ b) = (timers delay a + timers delay b)%nat.
Proof.
  induction a as [|e a IH]; [reflexivity|].
  destruct e; cbn [app timers]; rewrite IH; lia.
Qed.

Lemma disconnected_env_refuses (g : Globals) (h : list WhatsAppService.Event) :
  connectionStatus g = "disconnected" ->
  WhatsAppService.isConnected (env_of g h) = false.
Proof.
  intros Hg. unfold WhatsAppService.isConnected, env_of. cbn.
  rewrite Hg. now destruct (sock g).
Qed.

Lemma occur_consistent (g : Globals) (o : Occurrence) :
  consistent g -> consistent (fst (occur loggedOut g o)).
Proof.
  intros Hg. destruct o as [auth made|u]; cbn [occur].
  - unfold initWhatsApp.
    destruct auth as [[]|e]; [|exact Hg].
    destruct made as [s|e]; [|exact Hg].
    cbn [fst]. destruct Hg as [[Hc _]|Hd]; [left|right]; cbn; [|exact Hd].
    split; [exact Hc|discriminate].
  - destruct (sock g) as [s|] eqn:Hs; [|exact Hg].
    unfold consistent. rewrite update_status, update_sock, Hs.
    destruct (strict_eq (connection u) "close"); [now right|].
    destruct (strict_eq (connection u) "open"); [left; split; [reflexivity|discriminate]|].
    destruct Hg as [[Hc _]|Hd]; [left; split; [exact Hc|discriminate]|now right].
Qed.

Lemma occur_all_cons (g : Globals) (o : Occurrence) (os : list Occurrence) :
  fst (occur_all g (o :: os)) = fst (occur_all (fst (occur loggedOut g o)) os).
Proof.
  cbn [WhatsAppConnection.occur_all].
  destruct (occur loggedOut g o) as [g1 e1]. cbn [fst].
  now destruct (occur_all g1 os).
Qed.

Lemma occur_all_consistent (os : list Occurrence) (g : Globals) :
  consistent g -> consistent (fst (occur_all g os)).
Proof.
  revert g. induction os as [|o os IH]; intros g Hg; [exact Hg|].
  rewrite occur_all_cons. apply IH. now apply occur_consistent.
Qed.

(** *** Properties of the connection state *)

(** X9: after a 'close' update, and as long as no 'open' update follows,
    the status is 'disconnected' and every [sendMessage] is refused with
    'WhatsApp not connected' without reaching the socket, whatever QR or
    other updates arrive in between. *)
Theorem closed_connection_refuses_sends
    (g : Globals) (before after : list ConnectionUpdate) (u : ConnectionUpdate) :
  strict_eq (connection u) "close" = true ->
  (forall v, In v after -> strict_eq (connection v) "open" = false) ->
  connectionStatus (fst (update_all g (before ++ u :: after))) = "disconnected" /\
  (forall sock_sendMessage phoneNumber txt h,
     WhatsAppService.sendMessage sock_sendMessage phoneNumber txt
       (env_of (fst (update_all g (before ++ u :: after))) h)
     = (WhatsAppService.Normal
          {| WhatsAppService.success := false;
             WhatsAppService.error := Some "WhatsApp not connected" |},
        [WhatsAppService.ConsoleError WhatsAppService.SENDING_ERROR
           WhatsAppService.NOT_CONNECTED])).
Proof.
  intros Hclose Hafter.
  assert (Hs : connectionStatus (fst (update_all g (before ++ u :: after)))
               = "disconnected").
  { rewrite update_all_app, update_all_cons. cbn [fst].
    apply status_stays_disconnected; [|exact Hafter].
    now rewrite update_status, Hclose. }
  split; [exact Hs|].
  intros sock_sendMessage phoneNumber txt h.
  rewrite WhatsAppServiceFacts.sendMessage_unfold.
  now rewrite disconnected_env_refuses.
Qed.

(** X10: after an 'open' update, and as long as no 'close' update
    follows, the status is 'connected' and [GET /status] says so; the
    socket is the one that was there before; and if no later update
    carries a QR code, [GET /qr] answers [null]. *)
Theorem open_connection_is_reported
    {User : Type} (user_of : WhatsAppService.WASocket -> option User)
    (g : Globals) (before after : list ConnectionUpdate) (u : ConnectionUpdate) :
  strict_eq (connection u) "open" = true ->
  (forall v, In v after -> strict_eq (connection v) "close" = false) ->
  connectionStatus (fst (update_all g (before ++ u :: after))) = "connected" /\
  connected (get_status user_of (fst (update_all g (before ++ u :: after)))) = true /\
  sock (fst (update_all g (before ++ u :: after))) = sock g /\
  ((forall v, In v after -> WhatsAppService.truthy (qr v) = false) ->
   get_qr (fst (update_all g (before ++ u :: after))) = None).
Proof.
  intros Hopen Hafter.
  assert (Hnc : strict_eq (connection u) "close" = false).
  { destruct (strict_eq (connection u) "close") eqn:E; [|reflexivity].
    apply close_is_not_open in E. congruence. }
  assert (Hs : connectionStatus (fst (update_all g (before ++ u :: after)))
               = "connected").
  { rewrite update_all_app, update_all_cons. cbn [fst].
    apply status_stays_connected; [|exact Hafter].
    now rewrite update_status, Hnc, Hopen. }
  split; [exact Hs|]. split; [|split].
  - unfold get_status. cbn [connected]. now rewrite Hs.
  - apply update_all_sock.
  - intros Hqr. unfold get_qr.
    rewrite update_all_app, update_all_cons. cbn [fst].
    destruct (qrCode_stays (fst (onConnectionUpdate u (fst (update_all g before))))
                after Hqr) as [H|H]; rewrite H; [|reflexivity].
    now rewrite update_qrCode, Hnc, Hopen.
Qed.

(** X11: [GET /qr] serves the latest QR code: after an update that
    carries a non-empty code and is not an 'open', followed by updates
    without a code and without an 'open', the answer is that code. *)
Theorem latest_qr_is_served
    (g : Globals) (before after : list ConnectionUpdate) (u : ConnectionUpdate) :
  WhatsAppService.truthy (qr u) = true ->
  strict_eq (connection u) "open" = false ->
  (forall v, In v after ->
     WhatsAppService.truthy (qr v) = false /\
     strict_eq (connection v) "open" = false) ->
  get_qr (fst (update_all g (before ++ u :: after))) = qr u.
Proof.
  intros Hqr Hno Hafter.
  rewrite update_all_app, update_all_cons. cbn [fst].
  set (g1 := fst (onConnectionUpdate u (fst (update_all g before)))).
  assert (H1 : qrCode g1 = qr u).
  { unfold g1. rewrite update_qrCode, Hqr, Hno.
    now destruct (strict_eq (connection u) "close"). }
  assert (Hkeep : forall us g0,
            (forall v, In v us ->
               WhatsAppService.truthy (qr v) = false /\
               strict_eq (connection v) "open" = false) ->
            qrCode (fst (update_all g0 us)) = qrCode g0).
  { induction us as [|v us IH]; intros g0 Hus; [reflexivity|].
    rewrite update_all_cons. cbn [fst].
    rewrite IH by (intros w Hw; apply Hus; now right).
    destruct (Hus v (or_introl eq_refl)) as [Hq Ho].
    rewrite update_qrCode, Hq, Ho.
    now destruct (strict_eq (connection v) "close"). }
  unfold get_qr. rewrite (Hkeep after g1 Hafter), H1, Hqr. reflexivity.
Qed.

(** X12: over any run of updates, one re-initialisation in 5 seconds is
    scheduled for each 'close' update whose status code is absent or
    differs from [DisconnectReason.loggedOut], and no timer of any other
    delay is set: a logged-out session is never reconnected. *)
Theorem one_reconnect_per_recoverable_close
    (g : Globals) (us : list ConnectionUpdate) (delay : Z) :
  timers delay (snd (update_all g us)) =
    if Z.eqb 5000 delay
    then length (List.filter
                   (fun u => strict_eq (connection u) "close"
                             && shouldReconnect loggedOut u) us)
    else 0%nat.
Proof.
  revert g. induction us as [|u us IH]; intros g.
  - now destruct (Z.eqb 5000 delay).
  - rewrite update_all_cons. cbn [snd List.filter].
    rewrite timers_app, update_timers, IH.
    destruct (strict_eq (connection u) "close" && shouldReconnect loggedOut u);
      destruct (Z.eqb 5000 delay); reflexivity.
Qed.

(** X13: from the initial values of the module variables, after any
    interleaving of [initWhatsApp] runs (failing or not) and connection
    updates, the status is 'connected' or 'disconnected', and [GET /status]
    reports [connected: true] exactly when [sendMessage] would pass its
    connection test: a 'connected' status never goes with a missing
    socket. *)
Theorem status_endpoint_agrees_with_send_guard
    {User : Type} (user_of : WhatsAppService.WASocket -> option User)
    (os : list Occurrence) (h : list WhatsAppService.Event) :
  (connectionStatus (fst (occur_all initial os)) = "connected" \/
   connectionStatus (fst (occur_all initial os)) = "disconnected") /\
  connected (get_status user_of (fst (occur_all initial os)))
  = WhatsAppService.isConnected (env_of (fst (occur_all initial os)) h).
Proof.
  assert (H : consistent (fst (occur_all initial os)))
    by (apply occur_all_consistent; now right).
  unfold get_status, WhatsAppService.isConnected, env_of. cbn.
  destruct H as [[Hc Hs]|Hd].
  - split; [now left|]. rewrite Hc.
    now destruct (sock (fst (occur_all initial os))).
  - split; [now right|]. rewrite Hd.
    now destruct (sock (fst (occur_all initial os))).
Qed.

End ConnectionFacts.

(** *** The properties at sample runs *)

Lemma closed_connection_refuses_sends_witness :
  connectionStatus
    (fst (update_all 401 with_socket
            ([open_update] ++ close_update 428 :: [connecting_update; qr_update "2@abc"])))
  = "disconnected".
Proof.
  apply (closed_connection_refuses_sends 401 with_socket [open_update]
           [connecting_update; qr_update "2@abc"] (close_update 428)).
  - reflexivity.
  - intros v [<-|[<-|[]]]; reflexivity.
Defined.

Lemma open_connection_is_reported_witness :
  get_qr (fst (update_all 401 with_socket
                 ([qr_update "2@abc"] ++ open_update :: [connecting_update])))
  = None.
Proof.
  apply (open_connection_is_reported 401 (fun _ => Some "15550000001"%string)
           with_socket [qr_update "2@abc"] [connecting_update] open_update).
  - reflexivity.
  - intros v [<-|[]]; reflexivity.
  - intros v [<-|[]]; reflexivity.
Defined.

Lemma latest_qr_is_served_witness :
  get_qr (fst (update_all 401 with_socket
                 ([qr_update "2@abc"] ++ qr_update "2@def" :: [connecting_update])))
  = Some "2@def".
Proof.
  apply (latest_qr_is_served 401 with_socket [qr_update "2@abc"]
           [connecting_update] (qr_update "2@def")).
  - reflexivity.
  - reflexivity.
  - intros v [<-|[]]; split; reflexivity.
Defined.
End WhatsAppConnectionFacts.
